(** * The App service of go-api-basic (service/app.go)

    A shallow embedding of [AppService.Create], [AppService.Update],
    [AppService.Delete] and of the two lookup helpers
    [findAppByExternalID] and [findAppByExternalIDWithAudit], together with
    the response builders [newAPIKeyResponse] and [newAppResponse].

    The Go code talks to three things it does not define itself: the Go
    runtime (uuid, time, the random source), the generated query layer
    [appstore] and the [Datastorer] unit of work.  The first two are taken
    as records of functions ([Runtime], [Engine]) so that every theorem
    holds for every behaviour of the database, failures and odd row counts
    included.  A small in-memory engine with fault injection ([Mem]) gives
    the concrete runs. *)

From Stdlib Require Import ZArith NArith List String Bool Lia DecimalString.
Import ListNotations.
Open Scope string_scope.
Open Scope Z_scope.

Set Implicit Arguments.

(** ** Go values *)

(** [uuid.UUID] is a 128-bit value; [uuid.Nil] is all zeroes. *)
Definition UUID : Type := N.
Definition uuid_Nil : UUID := 0%N.

(** [uuid.NullUUID] *)
Module NullUUID.
Record t : Type := mk { UUID : UUID; Valid : bool }.
End NullUUID.

(** [time.Time], kept as the civil date and clock that [time.Date] is given
    and the location. *)
Inductive Location : Type :=
| UTC
| FixedZone (name : string) (offset : Z).

Module Time.
Record t : Type := mk {
  year : Z; month : Z; day : Z;
  hour : Z; minute : Z; second : Z; nsec : Z;
  loc : Location }.
End Time.

(** [time.Date(year, month, day, hour, min, sec, nsec, loc)] for arguments
    that are in range, where Go does not normalise anything. *)
Definition time_Date (y mo d h mi s ns : Z) (l : Location) : Time.t :=
  Time.mk y mo d h mi s ns l.

(** [%d] of [fmt.Sprintf] on an [int64]. *)
Definition Z_to_string (n : Z) : string := NilZero.string_of_int (Z.to_int n).

(** ** Errors

    [error] values as the service tells them apart: the sentinel
    [pgx.ErrNoRows], which the code compares with [==]; a plain error made
    from a message; an [*errs.Error], which carries a [Kind] and the cause
    it wraps; and the report of a rollback that failed, which keeps the
    rollback's error and the original one. *)
Module errs.
Inductive Kind : Type := Other | Validation | Database | Encryption.
End errs.

Inductive error : Type :=
| ErrNoRows
| errors_New (msg : string)
| ErrRollback (rollbackErr original : error)
| errs_Error (Kind : errs.Kind) (Err : error).

(** Modelled from the spec: [errs.E] lives in domain/errs, which is not part
    of the source at hand.  Spec section 7 has the kinds Validation,
    Database and Encryption, and errors that wrap "the original cause":
    with a [Kind] and a cause, [errs.E] gives a new [*errs.Error] of that
    kind around the cause.  The two call shapes of app.go are [errs.E(kind, err)] and
    [errs.E(kind, "message")]. *)
Definition errs_E (k : errs.Kind) (cause : error) : error := errs_Error k cause.

(** Modelled from the spec: [errs.E(kind, "message")], the same with a
    cause made from the message. *)
Definition errs_E_msg (k : errs.Kind) (msg : string) : error :=
  errs_Error k (errors_New msg).

(** The kind a caller reads off an error; anything that is not an
    [*errs.Error] has none. *)
Definition KindOf (e : error) : errs.Kind :=
  match e with
  | errs_Error k _ => k
  | _ => errs.Other
  end.

(** [err == pgx.ErrNoRows]: identity with the sentinel.  A freshly built
    [*errs.Error] is another value, whatever it wraps. *)
Definition is_ErrNoRows (e : error) : bool :=
  match e with
  | ErrNoRows => true
  | _ => false
  end.

(** ** Domain types (domain/secure, org, person, user, app, audit)

    The struct declarations are outside the source at hand; the fields are
    the ones app.go reads and writes. *)

(** [secure.Identifier], represented by the text its [String] method
    prints. *)
Module Identifier.
Record t : Type := mk { String : string }.
Definition zero : t := mk "".
End Identifier.

Module Kind.
Record t : Type := mk { ID : UUID; ExternalID : string; Description : string }.
Definition zero : t := mk uuid_Nil "" "".
End Kind.

Module Org.
Record t : Type := mk {
  ID : UUID;
  ExternalID : Identifier.t;
  Name : string;
  Description : string;
  Kind : Kind.t }.
Definition zero : t := mk uuid_Nil Identifier.zero "" "" Kind.zero.
End Org.

Module Profile.
Record t : Type := mk { FirstName : string; LastName : string }.
End Profile.

Module User.
Record t : Type := mk {
  ID : UUID;
  Username : string;
  Org : Org.t;
  Profile : Profile.t }.
End User.

(** [app.APIKey]: the plaintext key, its ciphertext and the deactivation
    date, read through the methods [Key], [Ciphertext] and
    [DeactivationDate]. *)
Module APIKey.
Record t : Type := mk {
  Key : string;
  Ciphertext : string;
  DeactivationDate : Time.t }.
End APIKey.

Module App.
Record t : Type := mk {
  ID : UUID;
  ExternalID : Identifier.t;
  Org : Org.t;
  Name : string;
  Description : string;
  APIKeys : list APIKey.t }.
End App.

Module Audit.
Record t : Type := mk { App : App.t; User : User.t; Moment : Time.t }.
End Audit.

Module SimpleAudit.
Record t : Type := mk { First : Audit.t; Last : Audit.t }.
End SimpleAudit.

(** ** Service types (service/app.go) *)

Module appAudit.
Record t : Type := mk { App : App.t; SimpleAudit : SimpleAudit.t }.
End appAudit.

Module CreateAppRequest.
Record t : Type := mk { Name : string; Description : string }.
End CreateAppRequest.

Module APIKeyResponse.
Record t : Type := mk { Key : string; DeactivationDate : string }.
End APIKeyResponse.

Module AppResponse.
Record t : Type := mk {
  ExternalID : string;
  Name : string;
  Description : string;
  CreateAppExtlID : string;
  CreateUsername : string;
  CreateUserFirstName : string;
  CreateUserLastName : string;
  CreateDateTime : string;
  UpdateAppExtlID : string;
  UpdateUsername : string;
  UpdateUserFirstName : string;
  UpdateUserLastName : string;
  UpdateDateTime : string;
  APIKeys : list APIKeyResponse.t }.
End AppResponse.

Module UpdateAppRequest.
Record t : Type := mk {
  ExternalID : string;
  Name : string;
  Description : string }.
End UpdateAppRequest.

(** [DeleteResponse] is declared in another file of the package; [Delete]
    fills these two fields. *)
Module DeleteResponse.
Record t : Type := mk { ExternalID : string; Deleted : bool }.
End DeleteResponse.

(** ** Query parameters and rows (datastore/appstore)

    Each record has the fields of the struct literal, or of the row reads,
    in app.go. *)

Module CreateAppParams.
Record t : Type := mk {
  AppID : UUID;
  OrgID : UUID;
  AppExtlID : string;
  AppName : string;
  AppDescription : string;
  CreateAppID : UUID;
  CreateUserID : NullUUID.t;
  CreateTimestamp : Time.t;
  UpdateAppID : UUID;
  UpdateUserID : NullUUID.t;
  UpdateTimestamp : Time.t }.
End CreateAppParams.

Module CreateAppAPIKeyParams.
Record t : Type := mk {
  ApiKey : string;
  AppID : UUID;
  DeactvDate : Time.t;
  CreateAppID : UUID;
  CreateUserID : NullUUID.t;
  CreateTimestamp : Time.t;
  UpdateAppID : UUID;
  UpdateUserID : NullUUID.t;
  UpdateTimestamp : Time.t }.
End CreateAppAPIKeyParams.

Module UpdateAppParams.
Record t : Type := mk {
  AppName : string;
  AppDescription : string;
  UpdateAppID : UUID;
  UpdateUserID : NullUUID.t;
  UpdateTimestamp : Time.t;
  AppID : UUID }.
End UpdateAppParams.

Module FindAppByExternalIDRow.
Record t : Type := mk {
  AppID : UUID;
  AppExtlID : string;
  OrgID : UUID;
  OrgExtlID : string;
  OrgName : string;
  OrgDescription : string;
  OrgKindID : UUID;
  OrgKindExtlID : string;
  OrgKindDesc : string;
  AppName : string;
  AppDescription : string }.
End FindAppByExternalIDRow.

Module FindAppByExternalIDWithAuditRow.
Record t : Type := mk {
  AppID : UUID;
  AppExtlID : string;
  OrgID : UUID;
  OrgExtlID : string;
  OrgName : string;
  OrgDescription : string;
  OrgKindID : UUID;
  OrgKindExtlID : string;
  OrgKindDesc : string;
  AppName : string;
  AppDescription : string;
  CreateAppID : UUID;
  CreateAppExtlID : string;
  CreateAppOrgID : UUID;
  CreateAppName : string;
  CreateAppDescription : string;
  CreateUserID : NullUUID.t;
  CreateUsername : string;
  CreateUserOrgID : UUID;
  CreateUserFirstName : string;
  CreateUserLastName : string;
  CreateTimestamp : Time.t;
  UpdateAppID : UUID;
  UpdateAppExtlID : string;
  UpdateAppOrgID : UUID;
  UpdateAppName : string;
  UpdateAppDescription : string;
  UpdateUserID : NullUUID.t;
  UpdateUsername : string;
  UpdateUserOrgID : UUID;
  UpdateUserFirstName : string;
  UpdateUserLastName : string;
  UpdateTimestamp : Time.t }.
End FindAppByExternalIDWithAuditRow.

(** Modelled from the spec: [datastore.NewNullUUID] is outside the source at
    hand.  The acting user "may be absent" (spec section 3, Audit); an
    absent user has the nil UUID and is stored as SQL NULL. *)
Definition NewNullUUID (i : UUID) : NullUUID.t :=
  if N.eqb i uuid_Nil then NullUUID.mk uuid_Nil false else NullUUID.mk i true.

(** ** What the service is run against *)

(** The Go runtime and the libraries below the service: the random source
    behind [uuid.New], [secure.NewID] and the cipher, the parser of stored
    identifiers, and the two renderings of a [time.Time].  [Rand] is the
    state of the random source. *)
Record Runtime : Type := {
  Rand : Type;
  uuid_New : Rand -> UUID * Rand;
  secure_NewID : Rand -> Identifier.t * Rand;
  secure_ParseIdentifier : string -> option Identifier.t;
  secure_Encrypt : list Byte.byte -> string -> Rand -> (string + error) * Rand;
  Time_String : Time.t -> string;
  Time_Format_RFC3339 : Time.t -> string }.

(** The generated query layer [appstore.Queries] and the connection under
    it.  [DB] is what one connection sees of the tables; a query on it
    answers rows affected or an error, [(int64, error)] in Go, and leaves
    the tables as the database pleases.  [Begin], [Commit] and [Rollback]
    say whether the driver call fails. *)
Record Engine : Type := {
  DB : Type;
  FindAppByExternalID : string -> DB -> FindAppByExternalIDRow.t + error;
  FindAppByExternalIDWithAudit :
    string -> DB -> FindAppByExternalIDWithAuditRow.t + error;
  CreateApp : CreateAppParams.t -> DB -> (Z + error) * DB;
  CreateAppAPIKey : CreateAppAPIKeyParams.t -> DB -> (Z + error) * DB;
  UpdateApp : UpdateAppParams.t -> DB -> (Z + error) * DB;
  DeleteAppAPIKeys : UUID -> DB -> (Z + error) * DB;
  DeleteApp : UUID -> DB -> (Z + error) * DB;
  Begin : DB -> option error;
  Commit : DB -> option error;
  Rollback : DB -> option error }.

(** Every call that reaches the database, in the order it is made, with the
    answer of each write. *)
Inductive Event : Type :=
| EvFindAppByExternalID (extlID : string)
| EvFindAppByExternalIDWithAudit (extlID : string)
| EvBeginTx
| EvCreateApp (arg : CreateAppParams.t) (res : Z + error)
| EvCreateAppAPIKey (arg : CreateAppAPIKeyParams.t) (res : Z + error)
| EvUpdateApp (arg : UpdateAppParams.t) (res : Z + error)
| EvDeleteAppAPIKeys (appID : UUID) (res : Z + error)
| EvDeleteApp (appID : UUID) (res : Z + error)
| EvCommitTx (err : option error)
| EvRollbackTx.

(** ** A state monad with panics

    A Go call runs in a world [W] and either returns or panics ([None]).
    Go errors are ordinary return values: a function of result type
    [(T, error)] returns [T + error]. *)
Definition M (W A : Type) : Type := W -> option A * W.

Definition ret {W A : Type} (a : A) : M W A := fun w => (Some a, w).

Definition bind {W A B : Type} (m : M W A) (k : A -> M W B) : M W B :=
  fun w =>
    match m w with
    | (Some a, w') => k a w'
    | (None, w') => (None, w')
    end.

Declare Scope go_scope.
Delimit Scope go_scope with go.
Notation "x <- m ;; k" := (bind m (fun x => k))
  (at level 61, m at next level, right associativity) : go_scope.
Notation "' pat <- m ;; k" := (bind m (fun x => match x with pat => k end))
  (at level 61, pat pattern, m at next level, right associativity) : go_scope.

Section Service.

Variable R : Runtime.
Variable E : Engine.

(** The committed tables, as any connection of the pool reads them, the
    random source and the calls made so far. *)
Record World : Type := mkWorld {
  rng : Rand R;
  pool : DB E;
  log : list Event }.

(** [pgx.Tx]: the tables as the open transaction sees them. *)
Definition Tx : Type := DB E.

(** [CryptoRandomGenerator]: draws a random string or fails. *)
Definition CryptoRandomGenerator : Type :=
  Rand R -> (string + error) * Rand R.

(** [AppService].  Its [Datastorer] is the pool of the world. *)
Record AppService : Type := mkAppService {
  RandomStringGenerator : CryptoRandomGenerator;
  EncryptionKey : list Byte.byte }.

Local Open Scope go_scope.

Definition emit (ev : Event) : M World unit :=
  fun w => (Some tt, mkWorld (rng w) (pool w) (log w ++ [ev])).

Definition draw {A : Type} (f : Rand R -> A * Rand R) : M World A :=
  fun w => let '(a, g) := f (rng w) in (Some a, mkWorld g (pool w) (log w)).

(** [secure.MustParseIdentifier]: panics on a malformed stored value. *)
Definition MustParseIdentifier (s : string) : M World Identifier.t :=
  fun w => (secure_ParseIdentifier R s, w).

(** *** Datastorer *)

(** [s.Datastorer.Pool()] *)
Definition Pool : M World (DB E) := fun w => (Some (pool w), w).

(** Modelled from the spec: the [Datastorer] methods are outside the
    source at hand.  The Aggregate Store is "a transactional
    unit-of-work abstraction exposing begin/commit/rollback" and each
    call "executes within exactly one ACID transaction": a transaction
    starts from the committed tables, its writes stay its own, and they
    reach the committed tables at commit only. *)
Definition BeginTx : M World (Tx + error) :=
  _ <- emit EvBeginTx ;;
  fun w =>
    match Begin E (pool w) with
    | Some err => (Some (inr err), w)
    | None => (Some (inl (pool w)), w)
    end.

(** Modelled from the spec: [Datastorer.CommitTx].  A commit that succeeds
    makes the tables of the transaction the committed ones; one that fails
    leaves the committed tables alone and hands back the error. *)
Definition CommitTx (tx : Tx) : M World (option error) :=
  _ <- emit (EvCommitTx (Commit E tx)) ;;
  fun w =>
    match Commit E tx with
    | Some err => (Some (Some err), w)
    | None => (Some None, mkWorld (rng w) tx (log w))
    end.

(** Modelled from the spec: [Datastorer.RollbackTx].  "Any failure inside
    an open transaction triggers an explicit rollback before the error is
    returned" and "Rollback failures are themselves reported (wrapping the
    original cause) rather than silently swallowed".  A rollback that
    fails is a storage operation that failed, a Database-kind error; one
    that succeeds hands back the error it was given. *)
Definition RollbackTx (tx : Tx) (err : error) : M World error :=
  _ <- emit EvRollbackTx ;;
  match Rollback E tx with
  | Some rollbackErr =>
      ret (errs_E errs.Database (ErrRollback rollbackErr err))
  | None => ret err
  end.

(** *** appstore.New(dbtx).Query(ctx, arg) *)

Definition appstore_FindAppByExternalID (dbtx : DB E) (extlID : string)
  : M World (FindAppByExternalIDRow.t + error) :=
  _ <- emit (EvFindAppByExternalID extlID) ;;
  ret (FindAppByExternalID E extlID dbtx).

Definition appstore_FindAppByExternalIDWithAudit (dbtx : DB E)
  (extlID : string) : M World (FindAppByExternalIDWithAuditRow.t + error) :=
  _ <- emit (EvFindAppByExternalIDWithAudit extlID) ;;
  ret (FindAppByExternalIDWithAudit E extlID dbtx).

Definition appstore_CreateApp (tx : Tx) (arg : CreateAppParams.t)
  : M World ((Z + error) * Tx) :=
  _ <- emit (EvCreateApp arg (fst (CreateApp E arg tx))) ;;
  ret (CreateApp E arg tx).

Definition appstore_CreateAppAPIKey (tx : Tx) (arg : CreateAppAPIKeyParams.t)
  : M World ((Z + error) * Tx) :=
  _ <- emit (EvCreateAppAPIKey arg (fst (CreateAppAPIKey E arg tx))) ;;
  ret (CreateAppAPIKey E arg tx).

Definition appstore_UpdateApp (tx : Tx) (arg : UpdateAppParams.t)
  : M World ((Z + error) * Tx) :=
  _ <- emit (EvUpdateApp arg (fst (UpdateApp E arg tx))) ;;
  ret (UpdateApp E arg tx).

Definition appstore_DeleteAppAPIKeys (tx : Tx) (appID : UUID)
  : M World ((Z + error) * Tx) :=
  _ <- emit (EvDeleteAppAPIKeys appID (fst (DeleteAppAPIKeys E appID tx))) ;;
  ret (DeleteAppAPIKeys E appID tx).

Definition appstore_DeleteApp (tx : Tx) (appID : UUID)
  : M World ((Z + error) * Tx) :=
  _ <- emit (EvDeleteApp appID (fst (DeleteApp E appID tx))) ;;
  ret (DeleteApp E appID tx).

(** *** domain/app *)

(** Modelled from the spec: [App.AddNewKey] is outside the source at hand.
    Spec section 4.2: "Generates a random plaintext secret of fixed
    adequate length using the supplied cryptographically secure random
    source; encrypts it with the supplied symmetric key to produce
    Ciphertext; returns an APIKey value exposing both the plaintext (for
    this-response-only disclosure) and the Ciphertext (for storage).
    Fails with an EncryptionError if the random source or cipher
    operation errors."  The method adds the key to the App's list; on
    failure the App is as it was. *)
Definition AddNewKey (a : App.t) (generator : CryptoRandomGenerator)
  (ek : list Byte.byte) (deactivation : Time.t)
  : M World (App.t * option error) :=
  plaintext <- draw generator ;;
  match plaintext with
  | inr err => ret (a, Some (errs_E errs.Encryption err))
  | inl k =>
      ciphertext <- draw (secure_Encrypt R ek k) ;;
      match ciphertext with
      | inr err => ret (a, Some (errs_E errs.Encryption err))
      | inl c =>
          ret (App.mk (App.ID a) (App.ExternalID a) (App.Org a)
                 (App.Name a) (App.Description a)
                 (App.APIKeys a ++ [APIKey.mk k c deactivation]),
               None)
      end
  end.

(** *** service/app.go *)

(** app.go:60 *)
Definition newAPIKeyResponse (key : APIKey.t) : APIKeyResponse.t :=
  APIKeyResponse.mk (APIKey.Key key)
    (Time_String R (APIKey.DeactivationDate key)).

(** app.go:65; the loop appends one response per key, in order. *)
Definition newAppResponse (aa : appAudit.t) : AppResponse.t :=
  let keys := map newAPIKeyResponse (App.APIKeys (appAudit.App aa)) in
  let First := SimpleAudit.First (appAudit.SimpleAudit aa) in
  let Last := SimpleAudit.Last (appAudit.SimpleAudit aa) in
  AppResponse.mk
    (Identifier.String (App.ExternalID (appAudit.App aa)))
    (App.Name (appAudit.App aa))
    (App.Description (appAudit.App aa))
    (Identifier.String (App.ExternalID (Audit.App First)))
    (User.Username (Audit.User First))
    (Profile.FirstName (User.Profile (Audit.User First)))
    (Profile.LastName (User.Profile (Audit.User First)))
    (Time_Format_RFC3339 R (Audit.Moment First))
    (Identifier.String (App.ExternalID (Audit.App Last)))
    (User.Username (Audit.User Last))
    (Profile.FirstName (User.Profile (Audit.User Last)))
    (Profile.LastName (User.Profile (Audit.User Last)))
    (Time_Format_RFC3339 R (Audit.Moment Last))
    keys.

Definition rowsAffectedShouldBe1 (n : Z) : string :=
  "rows affected should be 1, actual: " ++ Z_to_string n.

Definition rowsAffectedShouldBeAtLeast1 (n : Z) : string :=
  "rows affected should be at least 1, actual: " ++ Z_to_string n.

(** app.go:102-109: the new App and its first key. *)
Definition Create_newApp (s : AppService) (r : CreateAppRequest.t)
  (adt : Audit.t) : M World (App.t * option error) :=
  ID <- draw (uuid_New R) ;;
  ExternalID <- draw (secure_NewID R) ;;
  let a :=
    {| App.ID := ID;
       App.ExternalID := ExternalID;
       App.Org := App.Org (Audit.App adt);
       App.Name := CreateAppRequest.Name r;
       App.Description := CreateAppRequest.Description r;
       App.APIKeys := [] |} in
  let keyDeactivation := time_Date 2099 12 31 0 0 0 0 UTC in
  AddNewKey a (RandomStringGenerator s) (EncryptionKey s) keyDeactivation.

(** app.go:146-171: one insert per key; [Some err] is the error [Create]
    returns from inside the loop. *)
Fixpoint Create_APIKeys (adt : Audit.t) (aID : UUID) (keys : list APIKey.t)
  (tx : Tx) : M World (option error * Tx) :=
  match keys with
  | [] => ret (None, tx)
  | key :: keys =>
      let createAppAPIKeyParams :=
        {| CreateAppAPIKeyParams.ApiKey := APIKey.Ciphertext key;
           CreateAppAPIKeyParams.AppID := aID;
           CreateAppAPIKeyParams.DeactvDate := APIKey.DeactivationDate key;
           CreateAppAPIKeyParams.CreateAppID := App.ID (Audit.App adt);
           CreateAppAPIKeyParams.CreateUserID :=
             NewNullUUID (User.ID (Audit.User adt));
           CreateAppAPIKeyParams.CreateTimestamp := Audit.Moment adt;
           CreateAppAPIKeyParams.UpdateAppID := App.ID (Audit.App adt);
           CreateAppAPIKeyParams.UpdateUserID :=
             NewNullUUID (User.ID (Audit.User adt));
           CreateAppAPIKeyParams.UpdateTimestamp := Audit.Moment adt |} in
      '(apiKeyRowsAffected, tx) <-
        appstore_CreateAppAPIKey tx createAppAPIKeyParams ;;
      match apiKeyRowsAffected with
      | inr err =>
          err <- RollbackTx tx (errs_E errs.Database err) ;;
          ret (Some err, tx)
      | inl apiKeyRowsAffected =>
          if negb (apiKeyRowsAffected =? 1) then
            err <- RollbackTx tx
                     (errs_E_msg errs.Database
                        (rowsAffectedShouldBe1 apiKeyRowsAffected)) ;;
            ret (Some err, tx)
          else Create_APIKeys adt aID keys tx
      end
  end.

(** app.go:97 *)
Definition Create (s : AppService) (r : CreateAppRequest.t) (adt : Audit.t)
  : M World (AppResponse.t + error) :=
  '(a, err) <- Create_newApp s r adt ;;
  match err with
  | Some err => ret (inr err)
  | None =>
      let createAppParams :=
        {| CreateAppParams.AppID := App.ID a;
           CreateAppParams.OrgID := Org.ID (App.Org a);
           CreateAppParams.AppExtlID := Identifier.String (App.ExternalID a);
           CreateAppParams.AppName := App.Name a;
           CreateAppParams.AppDescription := App.Description a;
           CreateAppParams.CreateAppID := App.ID (Audit.App adt);
           CreateAppParams.CreateUserID :=
             NewNullUUID (User.ID (Audit.User adt));
           CreateAppParams.CreateTimestamp := Audit.Moment adt;
           CreateAppParams.UpdateAppID := App.ID (Audit.App adt);
           CreateAppParams.UpdateUserID :=
             NewNullUUID (User.ID (Audit.User adt));
           CreateAppParams.UpdateTimestamp := Audit.Moment adt |} in
      tx <- BeginTx ;;
      match tx with
      | inr err => ret (inr err)
      | inl tx =>
          '(rowsAffected, tx) <- appstore_CreateApp tx createAppParams ;;
          match rowsAffected with
          | inr err =>
              err <- RollbackTx tx (errs_E errs.Database err) ;;
              ret (inr err)
          | inl rowsAffected =>
              if negb (rowsAffected =? 1) then
                err <- RollbackTx tx
                         (errs_E_msg errs.Database
                            (rowsAffectedShouldBe1 rowsAffected)) ;;
                ret (inr err)
              else
                '(err, tx) <-
                  Create_APIKeys adt (App.ID a) (App.APIKeys a) tx ;;
                match err with
                | Some err => ret (inr err)
                | None =>
                    err <- CommitTx tx ;;
                    match err with
                    | Some err => ret (inr err)
                    | None =>
                        ret (inl (newAppResponse
                                    {| appAudit.App := a;
                                       appAudit.SimpleAudit :=
                                         {| SimpleAudit.First := adt;
                                            SimpleAudit.Last := adt |} |}))
                    end
                end
          end
      end
  end.

(** app.go:300 *)
Definition findAppByExternalID (dbtx : DB E) (extlID : string)
  : M World (App.t + error) :=
  row <- appstore_FindAppByExternalID dbtx extlID ;;
  match row with
  | inr err => ret (inr (errs_E errs.Database err))
  | inl row =>
      appExtlID <- MustParseIdentifier (FindAppByExternalIDRow.AppExtlID row) ;;
      orgExtlID <- MustParseIdentifier (FindAppByExternalIDRow.OrgExtlID row) ;;
      let a :=
        {| App.ID := FindAppByExternalIDRow.AppID row;
           App.ExternalID := appExtlID;
           App.Org :=
             {| Org.ID := FindAppByExternalIDRow.OrgID row;
                Org.ExternalID := orgExtlID;
                Org.Name := FindAppByExternalIDRow.OrgName row;
                Org.Description := FindAppByExternalIDRow.OrgDescription row;
                Org.Kind :=
                  {| Kind.ID := FindAppByExternalIDRow.OrgKindID row;
                     Kind.ExternalID :=
                       FindAppByExternalIDRow.OrgKindExtlID row;
                     Kind.Description :=
                       FindAppByExternalIDRow.OrgKindDesc row |} |};
           App.Name := FindAppByExternalIDRow.AppName row;
           App.Description := FindAppByExternalIDRow.AppDescription row;
           App.APIKeys := [] |} in
      ret (inl a)
  end.

(** [org.Org{ID: id}]: the other fields are zero values. *)
Definition Org_of_ID (id : UUID) : Org.t :=
  {| Org.ID := id;
     Org.ExternalID := Identifier.zero;
     Org.Name := "";
     Org.Description := "";
     Org.Kind := Kind.zero |}.

(** app.go:330 *)
Definition findAppByExternalIDWithAudit (dbtx : DB E) (extlID : string)
  : M World (appAudit.t + error) :=
  row <- appstore_FindAppByExternalIDWithAudit dbtx extlID ;;
  match row with
  | inr err => ret (inr (errs_E errs.Database err))
  | inl row =>
      appExtlID <-
        MustParseIdentifier (FindAppByExternalIDWithAuditRow.AppExtlID row) ;;
      orgExtlID <-
        MustParseIdentifier (FindAppByExternalIDWithAuditRow.OrgExtlID row) ;;
      let a :=
        {| App.ID := FindAppByExternalIDWithAuditRow.AppID row;
           App.ExternalID := appExtlID;
           App.Org :=
             {| Org.ID := FindAppByExternalIDWithAuditRow.OrgID row;
                Org.ExternalID := orgExtlID;
                Org.Name := FindAppByExternalIDWithAuditRow.OrgName row;
                Org.Description :=
                  FindAppByExternalIDWithAuditRow.OrgDescription row;
                Org.Kind :=
                  {| Kind.ID := FindAppByExternalIDWithAuditRow.OrgKindID row;
                     Kind.ExternalID :=
                       FindAppByExternalIDWithAuditRow.OrgKindExtlID row;
                     Kind.Description :=
                       FindAppByExternalIDWithAuditRow.OrgKindDesc row |} |};
           App.Name := FindAppByExternalIDWithAuditRow.AppName row;
           App.Description :=
             FindAppByExternalIDWithAuditRow.AppDescription row;
           App.APIKeys := [] |} in
      createAppExtlID <-
        MustParseIdentifier
          (FindAppByExternalIDWithAuditRow.CreateAppExtlID row) ;;
      updateAppExtlID <-
        MustParseIdentifier
          (FindAppByExternalIDWithAuditRow.UpdateAppExtlID row) ;;
      let sa :=
        {| SimpleAudit.First :=
             {| Audit.App :=
                  {| App.ID := FindAppByExternalIDWithAuditRow.CreateAppID row;
                     App.ExternalID := createAppExtlID;
                     App.Org :=
                       Org_of_ID
                         (FindAppByExternalIDWithAuditRow.CreateAppOrgID row);
                     App.Name :=
                       FindAppByExternalIDWithAuditRow.CreateAppName row;
                     App.Description :=
                       FindAppByExternalIDWithAuditRow.CreateAppDescription row;
                     App.APIKeys := [] |};
                Audit.User :=
                  {| User.ID :=
                       NullUUID.UUID
                         (FindAppByExternalIDWithAuditRow.CreateUserID row);
                     User.Username :=
                       FindAppByExternalIDWithAuditRow.CreateUsername row;
                     User.Org :=
                       Org_of_ID
                         (FindAppByExternalIDWithAuditRow.CreateUserOrgID row);
                     User.Profile :=
                       {| Profile.FirstName :=
                            FindAppByExternalIDWithAuditRow.CreateUserFirstName
                              row;
                          Profile.LastName :=
                            FindAppByExternalIDWithAuditRow.CreateUserLastName
                              row |} |};
                Audit.Moment :=
                  FindAppByExternalIDWithAuditRow.CreateTimestamp row |};
           SimpleAudit.Last :=
             {| Audit.App :=
                  {| App.ID := FindAppByExternalIDWithAuditRow.UpdateAppID row;
                     App.ExternalID := updateAppExtlID;
                     App.Org :=
                       Org_of_ID
                         (FindAppByExternalIDWithAuditRow.UpdateAppOrgID row);
                     App.Name :=
                       FindAppByExternalIDWithAuditRow.UpdateAppName row;
                     App.Description :=
                       FindAppByExternalIDWithAuditRow.UpdateAppDescription row;
                     App.APIKeys := [] |};
                Audit.User :=
                  {| User.ID :=
                       NullUUID.UUID
                         (FindAppByExternalIDWithAuditRow.UpdateUserID row);
                     User.Username :=
                       FindAppByExternalIDWithAuditRow.UpdateUsername row;
                     User.Org :=
                       Org_of_ID
                         (FindAppByExternalIDWithAuditRow.UpdateUserOrgID row);
                     User.Profile :=
                       {| Profile.FirstName :=
                            FindAppByExternalIDWithAuditRow.UpdateUserFirstName
                              row;
                          Profile.LastName :=
                            FindAppByExternalIDWithAuditRow.UpdateUserLastName
                              row |} |};
                Audit.Moment :=
                  FindAppByExternalIDWithAuditRow.UpdateTimestamp row |} |} in
      ret (inl {| appAudit.App := a; appAudit.SimpleAudit := sa |})
  end.

Definition noAppForExternalID : string :=
  "No app exists for the given external ID".

(** app.go:203-208: [aa.SimpleAudit.Last = adt], [aa.App.Name = r.Name],
    [aa.App.Description = r.Description]; every other field of [aa] stays. *)
Definition Update_override (aa : appAudit.t) (r : UpdateAppRequest.t)
  (adt : Audit.t) : appAudit.t :=
  {| appAudit.App :=
       {| App.ID := App.ID (appAudit.App aa);
          App.ExternalID := App.ExternalID (appAudit.App aa);
          App.Org := App.Org (appAudit.App aa);
          App.Name := UpdateAppRequest.Name r;
          App.Description := UpdateAppRequest.Description r;
          App.APIKeys := App.APIKeys (appAudit.App aa) |};
     appAudit.SimpleAudit :=
       {| SimpleAudit.First := SimpleAudit.First (appAudit.SimpleAudit aa);
          SimpleAudit.Last := adt |} |}.

(** app.go:190 *)
Definition Update (s : AppService) (r : UpdateAppRequest.t) (adt : Audit.t)
  : M World (AppResponse.t + error) :=
  dbtx <- Pool ;;
  aa <- findAppByExternalIDWithAudit dbtx (UpdateAppRequest.ExternalID r) ;;
  match aa with
  | inr err =>
      if is_ErrNoRows err then
        ret (inr (errs_E_msg errs.Validation noAppForExternalID))
      else ret (inr (errs_E errs.Database err))
  | inl aa =>
      let aa := Update_override aa r adt in
      let updateAppParams :=
        {| UpdateAppParams.AppName := App.Name (appAudit.App aa);
           UpdateAppParams.AppDescription := App.Description (appAudit.App aa);
           UpdateAppParams.UpdateAppID := App.ID (Audit.App adt);
           UpdateAppParams.UpdateUserID :=
             NewNullUUID (User.ID (Audit.User adt));
           UpdateAppParams.UpdateTimestamp := Audit.Moment adt;
           UpdateAppParams.AppID := App.ID (appAudit.App aa) |} in
      tx <- BeginTx ;;
      match tx with
      | inr err => ret (inr err)
      | inl tx =>
          '(rowsAffected, tx) <- appstore_UpdateApp tx updateAppParams ;;
          match rowsAffected with
          | inr err =>
              err <- RollbackTx tx (errs_E errs.Database err) ;;
              ret (inr err)
          | inl rowsAffected =>
              if negb (rowsAffected =? 1) then
                err <- RollbackTx tx
                         (errs_E_msg errs.Database
                            (rowsAffectedShouldBe1 rowsAffected)) ;;
                ret (inr err)
              else
                err <- CommitTx tx ;;
                match err with
                | Some err => ret (inr err)
                | None => ret (inl (newAppResponse aa))
                end
          end
      end
  end.

(** app.go:246 *)
Definition Delete (s : AppService) (extlID : string)
  : M World (DeleteResponse.t + error) :=
  dbtx <- Pool ;;
  a <- findAppByExternalID dbtx extlID ;;
  match a with
  | inr err =>
      if is_ErrNoRows err then
        ret (inr (errs_E_msg errs.Validation noAppForExternalID))
      else ret (inr (errs_E errs.Database err))
  | inl a =>
      tx <- BeginTx ;;
      match tx with
      | inr err => ret (inr err)
      | inl tx =>
          '(apiKeysRowsAffected, tx) <-
            appstore_DeleteAppAPIKeys tx (App.ID a) ;;
          match apiKeysRowsAffected with
          | inr err =>
              err <- RollbackTx tx (errs_E errs.Database err) ;;
              ret (inr err)
          | inl apiKeysRowsAffected =>
              if apiKeysRowsAffected <? 1 then
                err <- RollbackTx tx
                         (errs_E_msg errs.Database
                            (rowsAffectedShouldBeAtLeast1
                               apiKeysRowsAffected)) ;;
                ret (inr err)
              else
                '(rowsAffected, tx) <- appstore_DeleteApp tx (App.ID a) ;;
                match rowsAffected with
                | inr err =>
                    err <- RollbackTx tx (errs_E errs.Database err) ;;
                    ret (inr err)
                | inl rowsAffected =>
                    if negb (rowsAffected =? 1) then
                      err <- RollbackTx tx
                               (errs_E_msg errs.Database
                                  (rowsAffectedShouldBe1 rowsAffected)) ;;
                      ret (inr err)
                    else
                      err <- CommitTx tx ;;
                      match err with
                      | Some err => ret (inr err)
                      | None =>
                          ret (inl {| DeleteResponse.ExternalID := extlID;
                                      DeleteResponse.Deleted := true |})
                      end
                end
          end
      end
  end.

(** The calls made between two worlds of one run. *)
Definition events_since (w w' : World) : list Event :=
  skipn (List.length (log w)) (log w').

End Service.

Arguments mkWorld {R E} _ _ _.
Arguments mkAppService {R} _ _.

(** ** What the claims speak of, as predicates on the calls made *)

(** A write answered with one row affected and no error. *)
Definition one_row (res : Z + error) : bool :=
  match res with
  | inl n => n =? 1
  | inr _ => false
  end.

(** An insert or update that came back with an error or a row count other
    than 1. *)
Definition failed_write (ev : Event) : bool :=
  match ev with
  | EvCreateApp _ res | EvCreateAppAPIKey _ res | EvUpdateApp _ res =>
      negb (one_row res)
  | _ => false
  end.

Definition is_write (ev : Event) : bool :=
  match ev with
  | EvCreateApp _ _ | EvCreateAppAPIKey _ _ | EvUpdateApp _ _
  | EvDeleteAppAPIKeys _ _ | EvDeleteApp _ _ => true
  | _ => false
  end.

Definition is_commit (ev : Event) : bool :=
  match ev with
  | EvCommitTx _ => true
  | _ => false
  end.

Definition is_key_insert (ev : Event) : bool :=
  match ev with
  | EvCreateAppAPIKey _ _ => true
  | _ => false
  end.

Definition is_app_insert (ev : Event) : bool :=
  match ev with
  | EvCreateApp _ _ => true
  | _ => false
  end.

Definition is_app_delete (ev : Event) : bool :=
  match ev with
  | EvDeleteApp _ _ => true
  | _ => false
  end.

(** The five audit fields of a response, as an [Audit] fills them
    (app.go:75-84), and the two groups of them in a response. *)
Definition audit_fields (R : Runtime) (adt : Audit.t)
  : string * string * string * string * string :=
  (Identifier.String (App.ExternalID (Audit.App adt)),
   User.Username (Audit.User adt),
   Profile.FirstName (User.Profile (Audit.User adt)),
   Profile.LastName (User.Profile (Audit.User adt)),
   Time_Format_RFC3339 R (Audit.Moment adt)).

Definition create_fields (resp : AppResponse.t)
  : string * string * string * string * string :=
  (AppResponse.CreateAppExtlID resp,
   AppResponse.CreateUsername resp,
   AppResponse.CreateUserFirstName resp,
   AppResponse.CreateUserLastName resp,
   AppResponse.CreateDateTime resp).

Definition update_fields (resp : AppResponse.t)
  : string * string * string * string * string :=
  (AppResponse.UpdateAppExtlID resp,
   AppResponse.UpdateUsername resp,
   AppResponse.UpdateUserFirstName resp,
   AppResponse.UpdateUserLastName resp,
   AppResponse.UpdateDateTime resp).

(** The audit columns of a row, as an [Audit] fills them (app.go:120-125,
    152-157, 213-215), and the create and update columns of the two
    inserts. *)
Definition audit_columns (adt : Audit.t) : UUID * NullUUID.t * Time.t :=
  (App.ID (Audit.App adt),
   NewNullUUID (User.ID (Audit.User adt)),
   Audit.Moment adt).

Definition app_create_columns (p : CreateAppParams.t)
  : UUID * NullUUID.t * Time.t :=
  (CreateAppParams.CreateAppID p,
   CreateAppParams.CreateUserID p,
   CreateAppParams.CreateTimestamp p).

Definition app_update_columns (p : CreateAppParams.t)
  : UUID * NullUUID.t * Time.t :=
  (CreateAppParams.UpdateAppID p,
   CreateAppParams.UpdateUserID p,
   CreateAppParams.UpdateTimestamp p).

Definition key_create_columns (p : CreateAppAPIKeyParams.t)
  : UUID * NullUUID.t * Time.t :=
  (CreateAppAPIKeyParams.CreateAppID p,
   CreateAppAPIKeyParams.CreateUserID p,
   CreateAppAPIKeyParams.CreateTimestamp p).

Definition key_update_columns (p : CreateAppAPIKeyParams.t)
  : UUID * NullUUID.t * Time.t :=
  (CreateAppAPIKeyParams.UpdateAppID p,
   CreateAppAPIKeyParams.UpdateUserID p,
   CreateAppAPIKeyParams.UpdateTimestamp p).

(** The far-future deactivation date of app.go:108. *)
Definition farFuture : Time.t := time_Date 2099 12 31 0 0 0 0 UTC.

(** ** An in-memory engine

    Two tables held as lists of the inserted parameter records, and a set
    of faults that make the next call of a kind answer as told. *)
Module Mem.

Record Faults : Type := mkFaults {
  onBegin : option error;
  onCommit : option error;
  onRollback : option error;
  onCreateApp : option (Z + error);
  onCreateAppAPIKey : option (Z + error);
  onUpdateApp : option (Z + error);
  onDeleteAppAPIKeys : option (Z + error);
  onDeleteApp : option (Z + error) }.

Definition noFaults : Faults :=
  mkFaults None None None None None None None None.

Record Tables : Type := mkTables {
  apps : list CreateAppParams.t;
  keys : list CreateAppAPIKeyParams.t;
  users : list User.t;
  faults : Faults }.

Definition appByExtlID (extlID : string) (t : Tables)
  : option CreateAppParams.t :=
  find (fun a => String.eqb (CreateAppParams.AppExtlID a) extlID) (apps t).

Definition appByID (id : UUID) (t : Tables) : option CreateAppParams.t :=
  find (fun a => N.eqb (CreateAppParams.AppID a) id) (apps t).

Definition extlIDOf (id : UUID) (t : Tables) : string :=
  match appByID id t with
  | Some a => CreateAppParams.AppExtlID a
  | None => ""
  end.

Definition nameOf (id : UUID) (t : Tables) : string :=
  match appByID id t with
  | Some a => CreateAppParams.AppName a
  | None => ""
  end.

Definition descriptionOf (id : UUID) (t : Tables) : string :=
  match appByID id t with
  | Some a => CreateAppParams.AppDescription a
  | None => ""
  end.

Definition orgOf (id : UUID) (t : Tables) : UUID :=
  match appByID id t with
  | Some a => CreateAppParams.OrgID a
  | None => uuid_Nil
  end.

Definition noUser : User.t :=
  User.mk uuid_Nil "" (Org.mk uuid_Nil Identifier.zero "" "" Kind.zero)
    (Profile.mk "" "").

Definition userByID (id : NullUUID.t) (t : Tables) : User.t :=
  match find (fun u => N.eqb (User.ID u) (NullUUID.UUID id)) (users t) with
  | Some u => u
  | None => noUser
  end.

Definition keysOf (id : UUID) (t : Tables) : list CreateAppAPIKeyParams.t :=
  filter (fun k => N.eqb (CreateAppAPIKeyParams.AppID k) id) (keys t).

Definition findRow (extlID : string) (t : Tables)
  : FindAppByExternalIDRow.t + error :=
  match appByExtlID extlID t with
  | None => inr ErrNoRows
  | Some a =>
      inl {| FindAppByExternalIDRow.AppID := CreateAppParams.AppID a;
             FindAppByExternalIDRow.AppExtlID := CreateAppParams.AppExtlID a;
             FindAppByExternalIDRow.OrgID := CreateAppParams.OrgID a;
             FindAppByExternalIDRow.OrgExtlID := "";
             FindAppByExternalIDRow.OrgName := "";
             FindAppByExternalIDRow.OrgDescription := "";
             FindAppByExternalIDRow.OrgKindID := uuid_Nil;
             FindAppByExternalIDRow.OrgKindExtlID := "";
             FindAppByExternalIDRow.OrgKindDesc := "";
             FindAppByExternalIDRow.AppName := CreateAppParams.AppName a;
             FindAppByExternalIDRow.AppDescription :=
               CreateAppParams.AppDescription a |}
  end.

Definition findRowWithAudit (extlID : string) (t : Tables)
  : FindAppByExternalIDWithAuditRow.t + error :=
  match appByExtlID extlID t with
  | None => inr ErrNoRows
  | Some a =>
      inl {| FindAppByExternalIDWithAuditRow.AppID := CreateAppParams.AppID a;
             FindAppByExternalIDWithAuditRow.AppExtlID :=
               CreateAppParams.AppExtlID a;
             FindAppByExternalIDWithAuditRow.OrgID := CreateAppParams.OrgID a;
             FindAppByExternalIDWithAuditRow.OrgExtlID := "";
             FindAppByExternalIDWithAuditRow.OrgName := "";
             FindAppByExternalIDWithAuditRow.OrgDescription := "";
             FindAppByExternalIDWithAuditRow.OrgKindID := uuid_Nil;
             FindAppByExternalIDWithAuditRow.OrgKindExtlID := "";
             FindAppByExternalIDWithAuditRow.OrgKindDesc := "";
             FindAppByExternalIDWithAuditRow.AppName :=
               CreateAppParams.AppName a;
             FindAppByExternalIDWithAuditRow.AppDescription :=
               CreateAppParams.AppDescription a;
             FindAppByExternalIDWithAuditRow.CreateAppID :=
               CreateAppParams.CreateAppID a;
             FindAppByExternalIDWithAuditRow.CreateAppExtlID :=
               extlIDOf (CreateAppParams.CreateAppID a) t;
             FindAppByExternalIDWithAuditRow.CreateAppOrgID :=
               orgOf (CreateAppParams.CreateAppID a) t;
             FindAppByExternalIDWithAuditRow.CreateAppName :=
               nameOf (CreateAppParams.CreateAppID a) t;
             FindAppByExternalIDWithAuditRow.CreateAppDescription :=
               descriptionOf (CreateAppParams.CreateAppID a) t;
             FindAppByExternalIDWithAuditRow.CreateUserID :=
               CreateAppParams.CreateUserID a;
             FindAppByExternalIDWithAuditRow.CreateUsername :=
               User.Username (userByID (CreateAppParams.CreateUserID a) t);
             FindAppByExternalIDWithAuditRow.CreateUserOrgID :=
               Org.ID (User.Org (userByID (CreateAppParams.CreateUserID a) t));
             FindAppByExternalIDWithAuditRow.CreateUserFirstName :=
               Profile.FirstName
                 (User.Profile (userByID (CreateAppParams.CreateUserID a) t));
             FindAppByExternalIDWithAuditRow.CreateUserLastName :=
               Profile.LastName
                 (User.Profile (userByID (CreateAppParams.CreateUserID a) t));
             FindAppByExternalIDWithAuditRow.CreateTimestamp :=
               CreateAppParams.CreateTimestamp a;
             FindAppByExternalIDWithAuditRow.UpdateAppID :=
               CreateAppParams.UpdateAppID a;
             FindAppByExternalIDWithAuditRow.UpdateAppExtlID :=
               extlIDOf (CreateAppParams.UpdateAppID a) t;
             FindAppByExternalIDWithAuditRow.UpdateAppOrgID :=
               orgOf (CreateAppParams.UpdateAppID a) t;
             FindAppByExternalIDWithAuditRow.UpdateAppName :=
               nameOf (CreateAppParams.UpdateAppID a) t;
             FindAppByExternalIDWithAuditRow.UpdateAppDescription :=
               descriptionOf (CreateAppParams.UpdateAppID a) t;
             FindAppByExternalIDWithAuditRow.UpdateUserID :=
               CreateAppParams.UpdateUserID a;
             FindAppByExternalIDWithAuditRow.UpdateUsername :=
               User.Username (userByID (CreateAppParams.UpdateUserID a) t);
             FindAppByExternalIDWithAuditRow.UpdateUserOrgID :=
               Org.ID (User.Org (userByID (CreateAppParams.UpdateUserID a) t));
             FindAppByExternalIDWithAuditRow.UpdateUserFirstName :=
               Profile.FirstName
                 (User.Profile (userByID (CreateAppParams.UpdateUserID a) t));
             FindAppByExternalIDWithAuditRow.UpdateUserLastName :=
               Profile.LastName
                 (User.Profile (userByID (CreateAppParams.UpdateUserID a) t));
             FindAppByExternalIDWithAuditRow.UpdateTimestamp :=
               CreateAppParams.UpdateTimestamp a |}
  end.

Definition withFault (f : Faults -> option (Z + error))
  (run : Tables -> (Z + error) * Tables) (t : Tables)
  : (Z + error) * Tables :=
  match f (faults t) with
  | Some res => (res, t)
  | None => run t
  end.

Definition insertApp (arg : CreateAppParams.t) : Tables -> (Z + error) * Tables :=
  withFault onCreateApp (fun t =>
    match appByID (CreateAppParams.AppID arg) t with
    | Some _ => (inr (errors_New "duplicate key value"), t)
    | None => (inl 1, mkTables (apps t ++ [arg]) (keys t) (users t) (faults t))
    end).

Definition insertKey (arg : CreateAppAPIKeyParams.t)
  : Tables -> (Z + error) * Tables :=
  withFault onCreateAppAPIKey (fun t =>
    (inl 1, mkTables (apps t) (keys t ++ [arg]) (users t) (faults t))).

Definition updateRow (arg : UpdateAppParams.t) (a : CreateAppParams.t)
  : CreateAppParams.t :=
  if N.eqb (CreateAppParams.AppID a) (UpdateAppParams.AppID arg) then
    {| CreateAppParams.AppID := CreateAppParams.AppID a;
       CreateAppParams.OrgID := CreateAppParams.OrgID a;
       CreateAppParams.AppExtlID := CreateAppParams.AppExtlID a;
       CreateAppParams.AppName := UpdateAppParams.AppName arg;
       CreateAppParams.AppDescription := UpdateAppParams.AppDescription arg;
       CreateAppParams.CreateAppID := CreateAppParams.CreateAppID a;
       CreateAppParams.CreateUserID := CreateAppParams.CreateUserID a;
       CreateAppParams.CreateTimestamp := CreateAppParams.CreateTimestamp a;
       CreateAppParams.UpdateAppID := UpdateAppParams.UpdateAppID arg;
       CreateAppParams.UpdateUserID := UpdateAppParams.UpdateUserID arg;
       CreateAppParams.UpdateTimestamp := UpdateAppParams.UpdateTimestamp arg |}
  else a.

Definition updateApp (arg : UpdateAppParams.t)
  : Tables -> (Z + error) * Tables :=
  withFault onUpdateApp (fun t =>
    (inl (Z.of_nat (List.length
            (filter (fun a => N.eqb (CreateAppParams.AppID a)
                                    (UpdateAppParams.AppID arg)) (apps t)))),
     mkTables (map (updateRow arg) (apps t)) (keys t) (users t) (faults t))).

Definition deleteKeys (id : UUID) : Tables -> (Z + error) * Tables :=
  withFault onDeleteAppAPIKeys (fun t =>
    (inl (Z.of_nat (List.length (keysOf id t))),
     mkTables (apps t)
       (filter (fun k => negb (N.eqb (CreateAppAPIKeyParams.AppID k) id))
               (keys t))
       (users t) (faults t))).

Definition deleteApp (id : UUID) : Tables -> (Z + error) * Tables :=
  withFault onDeleteApp (fun t =>
    (inl (Z.of_nat (List.length
            (filter (fun a => N.eqb (CreateAppParams.AppID a) id) (apps t)))),
     mkTables
       (filter (fun a => negb (N.eqb (CreateAppParams.AppID a) id)) (apps t))
       (keys t) (users t) (faults t))).

Definition engine : Engine :=
  {| DB := Tables;
     FindAppByExternalID := findRow;
     FindAppByExternalIDWithAudit := findRowWithAudit;
     CreateApp := insertApp;
     CreateAppAPIKey := insertKey;
     UpdateApp := updateApp;
     DeleteAppAPIKeys := deleteKeys;
     DeleteApp := deleteApp;
     Begin := fun t => onBegin (faults t);
     Commit := fun t => onCommit (faults t);
     Rollback := fun t => onRollback (faults t) |}.

Definition N_to_string (n : N) : string :=
  NilZero.string_of_uint (N.to_uint n).

Definition pad2 (n : Z) : string :=
  if n <? 10 then "0" ++ Z_to_string n else Z_to_string n.

Definition zone (l : Location) : string :=
  match l with
  | UTC => "Z"
  | FixedZone _ offset =>
      (if offset <? 0 then "-" else "+")
        ++ pad2 (Z.abs offset / 3600) ++ ":"
        ++ pad2 ((Z.abs offset / 60) mod 60)
  end.

Definition zoneName (l : Location) : string :=
  match l with
  | UTC => " +0000 UTC"
  | FixedZone name offset =>
      (if offset <? 0 then " -" else " +")
        ++ pad2 (Z.abs offset / 3600) ++ pad2 ((Z.abs offset / 60) mod 60)
        ++ " " ++ name
  end.

Definition civil (sep : string) (t : Time.t) : string :=
  Z_to_string (Time.year t) ++ "-" ++ pad2 (Time.month t) ++ "-"
    ++ pad2 (Time.day t) ++ sep ++ pad2 (Time.hour t) ++ ":"
    ++ pad2 (Time.minute t) ++ ":" ++ pad2 (Time.second t).

Definition runtime : Runtime :=
  {| Rand := N;
     uuid_New := fun g => (g, N.succ g);
     secure_NewID := fun g => (Identifier.mk ("x" ++ N_to_string g), N.succ g);
     secure_ParseIdentifier := fun s => Some (Identifier.mk s);
     secure_Encrypt := fun _ k g => (inl ("sealed:" ++ k), g);
     Time_String := fun t => civil " " t ++ zoneName (Time.loc t);
     Time_Format_RFC3339 := fun t => civil "T" t ++ zone (Time.loc t) |}.

Definition service : AppService runtime :=
  mkAppService (R := runtime)
    (fun g => (inl ("key" ++ N_to_string g), N.succ g)) [].

(** A service whose random source is out of order. *)
Definition brokenService : AppService runtime :=
  mkAppService (R := runtime) (fun g => (inr (errors_New "no entropy"), g)) [].

Definition rootOrg : Org.t :=
  Org.mk 7%N (Identifier.mk "org7") "Acme" "the owning org" Kind.zero.

Definition rootApp : App.t :=
  App.mk 1%N (Identifier.mk "root") rootOrg "root app" "the acting app" [].

Definition alice : User.t :=
  User.mk 5%N "alice" rootOrg (Profile.mk "Alice" "Liddell").

Definition bob : User.t :=
  User.mk 6%N "bob" rootOrg (Profile.mk "Bob" "Hope").

Definition T1 : Time.t := time_Date 2024 1 2 3 4 5 0 UTC.
Definition T2 : Time.t := time_Date 2024 6 7 8 9 10 0 UTC.

Definition adt1 : Audit.t := Audit.mk rootApp alice T1.
Definition adt2 : Audit.t := Audit.mk rootApp bob T2.

Definition billing : CreateAppRequest.t :=
  CreateAppRequest.mk "Billing Service" "handles billing".

Definition world (t : Tables) : World runtime engine :=
  mkWorld (R := runtime) (E := engine) 100%N t [].

(** The row of the acting app, inserted by itself at the epoch. *)
Definition epoch : Time.t := time_Date 2020 1 1 0 0 0 0 UTC.

Definition rootRow : CreateAppParams.t :=
  {| CreateAppParams.AppID := 1%N;
     CreateAppParams.OrgID := 7%N;
     CreateAppParams.AppExtlID := "root";
     CreateAppParams.AppName := "root app";
     CreateAppParams.AppDescription := "the acting app";
     CreateAppParams.CreateAppID := 1%N;
     CreateAppParams.CreateUserID := NullUUID.mk uuid_Nil false;
     CreateAppParams.CreateTimestamp := epoch;
     CreateAppParams.UpdateAppID := 1%N;
     CreateAppParams.UpdateUserID := NullUUID.mk uuid_Nil false;
     CreateAppParams.UpdateTimestamp := epoch |}.

(** The tables every run below starts from: the acting app, the two users,
    no key. *)
Definition seeded (f : Faults) : Tables :=
  mkTables [rootRow] [] [alice; bob] f.

(** The world after [Create(billing, adt1)] on the seeded tables. *)
Definition afterCreate : World runtime engine :=
  snd (Create service billing adt1 (world (seeded noFaults))).

(** The world of a next call: the tables and random source of [w], the
    faults [f], and a log that starts afresh. *)
Definition nextCall (f : Faults) (w : World runtime engine)
  : World runtime engine :=
  mkWorld (R := runtime) (E := engine) (rng w)
    (mkTables (apps (pool w)) (keys (pool w)) (users (pool w)) f) [].

(** The tables of [afterCreate] without the key of the new app. *)
Definition orphan : Tables :=
  mkTables (apps (pool afterCreate)) [] (users (pool afterCreate)) noFaults.

Definition keyInsertAffectsNone : Faults :=
  mkFaults None None None None (Some (inl 0)) None None None.

Definition updateFails : Faults :=
  mkFaults None None None None None
    (Some (inr (errors_New "connection reset"))) None None.

Definition rename : UpdateAppRequest.t :=
  UpdateAppRequest.mk "x101" "Billing API" "".

Definition unknown : UpdateAppRequest.t :=
  UpdateAppRequest.mk "nope" "Billing API" "".

(** What [Create(billing, adt1)] answers on the seeded tables. *)
Definition created : AppResponse.t :=
  {| AppResponse.ExternalID := "x101";
     AppResponse.Name := "Billing Service";
     AppResponse.Description := "handles billing";
     AppResponse.CreateAppExtlID := "root";
     AppResponse.CreateUsername := "alice";
     AppResponse.CreateUserFirstName := "Alice";
     AppResponse.CreateUserLastName := "Liddell";
     AppResponse.CreateDateTime := "2024-01-02T03:04:05Z";
     AppResponse.UpdateAppExtlID := "root";
     AppResponse.UpdateUsername := "alice";
     AppResponse.UpdateUserFirstName := "Alice";
     AppResponse.UpdateUserLastName := "Liddell";
     AppResponse.UpdateDateTime := "2024-01-02T03:04:05Z";
     AppResponse.APIKeys :=
       [APIKeyResponse.mk "key102" "2099-12-31 00:00:00 +0000 UTC"] |}.

(** The App that [Create(billing, adt1)] builds, before and after its key
    is generated. *)
Definition newAppNoKey : App.t :=
  App.mk 100%N (Identifier.mk "x101") rootOrg
    "Billing Service" "handles billing" [].

Definition newApp : App.t :=
  App.mk 100%N (Identifier.mk "x101") rootOrg
    "Billing Service" "handles billing"
    [APIKey.mk "key102" "sealed:key102" farFuture].

Definition noEntropy : error :=
  errs_E errs.Encryption (errors_New "no entropy").

(** What [Update(rename, adt2)] answers after that. *)
Definition renamed : AppResponse.t :=
  {| AppResponse.ExternalID := "x101";
     AppResponse.Name := "Billing API";
     AppResponse.Description := "";
     AppResponse.CreateAppExtlID := "root";
     AppResponse.CreateUsername := "alice";
     AppResponse.CreateUserFirstName := "Alice";
     AppResponse.CreateUserLastName := "Liddell";
     AppResponse.CreateDateTime := "2024-01-02T03:04:05Z";
     AppResponse.UpdateAppExtlID := "root";
     AppResponse.UpdateUsername := "bob";
     AppResponse.UpdateUserFirstName := "Bob";
     AppResponse.UpdateUserLastName := "Hope";
     AppResponse.UpdateDateTime := "2024-06-07T08:09:10Z";
     AppResponse.APIKeys := [] |}.




Definition beginFails : Faults :=
  mkFaults (Some (errors_New "too many connections"))
    None None None None None None None.

Definition commitFails : Faults :=
  mkFaults None (Some (errors_New "commit: connection lost"))
    None None None None None None.

Definition appDeleteAffectsNone : Faults :=
  mkFaults None None None None None None None (Some (inl 0)).

Definition lookupFails : error := errors_New "connection refused".

(** The engine whose lookups fail with [lookupFails]. *)
Definition downEngine : Engine :=
  {| DB := Tables;
     FindAppByExternalID := fun _ _ => inr lookupFails;
     FindAppByExternalIDWithAudit := fun _ _ => inr lookupFails;
     CreateApp := insertApp;
     CreateAppAPIKey := insertKey;
     UpdateApp := updateApp;
     DeleteAppAPIKeys := deleteKeys;
     DeleteApp := deleteApp;
     Begin := fun t => onBegin (faults t);
     Commit := fun t => onCommit (faults t);
     Rollback := fun t => onRollback (faults t) |}.

Definition twoKeys : list APIKey.t :=
  [APIKey.mk "k1" "sealed:k1" farFuture; APIKey.mk "k2" "sealed:k2" farFuture].

Definition downWorld : World runtime downEngine :=
  mkWorld (R := runtime) (E := downEngine) 100%N (seeded noFaults) [].

End Mem.

(** The reading of "the response's APIKeys list reflects the App's
    previously stored API keys" that asks least: one entry per stored key
    row, in order, with the deactivation date of the row. *)
Definition reflects_stored_keys (R : Runtime) (resp : AppResponse.t)
  (stored : list CreateAppAPIKeyParams.t) : Prop :=
  map APIKeyResponse.DeactivationDate (AppResponse.APIKeys resp)
  = map (fun k => Time_String R (CreateAppAPIKeyParams.DeactvDate k)) stored.

(** ** The parameter records of the writes, and shapes of logs *)

(** The struct literal of app.go:114-126, for the App [a] and the audit. *)
Definition createAppParams (a : App.t) (adt : Audit.t) : CreateAppParams.t :=
  {| CreateAppParams.AppID := App.ID a;
     CreateAppParams.OrgID := Org.ID (App.Org a);
     CreateAppParams.AppExtlID := Identifier.String (App.ExternalID a);
     CreateAppParams.AppName := App.Name a;
     CreateAppParams.AppDescription := App.Description a;
     CreateAppParams.CreateAppID := App.ID (Audit.App adt);
     CreateAppParams.CreateUserID := NewNullUUID (User.ID (Audit.User adt));
     CreateAppParams.CreateTimestamp := Audit.Moment adt;
     CreateAppParams.UpdateAppID := App.ID (Audit.App adt);
     CreateAppParams.UpdateUserID := NewNullUUID (User.ID (Audit.User adt));
     CreateAppParams.UpdateTimestamp := Audit.Moment adt |}.

(** The struct literal of app.go:148-158, for one key. *)
Definition createAppAPIKeyParams (adt : Audit.t) (aID : UUID)
  (key : APIKey.t) : CreateAppAPIKeyParams.t :=
  {| CreateAppAPIKeyParams.ApiKey := APIKey.Ciphertext key;
     CreateAppAPIKeyParams.AppID := aID;
     CreateAppAPIKeyParams.DeactvDate := APIKey.DeactivationDate key;
     CreateAppAPIKeyParams.CreateAppID := App.ID (Audit.App adt);
     CreateAppAPIKeyParams.CreateUserID :=
       NewNullUUID (User.ID (Audit.User adt));
     CreateAppAPIKeyParams.CreateTimestamp := Audit.Moment adt;
     CreateAppAPIKeyParams.UpdateAppID := App.ID (Audit.App adt);
     CreateAppAPIKeyParams.UpdateUserID :=
       NewNullUUID (User.ID (Audit.User adt));
     CreateAppAPIKeyParams.UpdateTimestamp := Audit.Moment adt |}.

(** The struct literal of app.go:210-217, for the aggregate read [aa]. *)
Definition updateAppParams (aa : appAudit.t) (r : UpdateAppRequest.t)
  (adt : Audit.t) : UpdateAppParams.t :=
  {| UpdateAppParams.AppName := UpdateAppRequest.Name r;
     UpdateAppParams.AppDescription := UpdateAppRequest.Description r;
     UpdateAppParams.UpdateAppID := App.ID (Audit.App adt);
     UpdateAppParams.UpdateUserID := NewNullUUID (User.ID (Audit.User adt));
     UpdateAppParams.UpdateTimestamp := Audit.Moment adt;
     UpdateAppParams.AppID := App.ID (appAudit.App aa) |}.

(** The insert of one key, answered with one row. *)
Definition key_inserted (adt : Audit.t) (aID : UUID) (key : APIKey.t)
  : Event :=
  EvCreateAppAPIKey (createAppAPIKeyParams adt aID key) (inl 1).

(** The columns the two lookup rows have in common. *)
Definition shared_columns (row : FindAppByExternalIDWithAuditRow.t)
  : FindAppByExternalIDRow.t :=
  {| FindAppByExternalIDRow.AppID :=
       FindAppByExternalIDWithAuditRow.AppID row;
     FindAppByExternalIDRow.AppExtlID :=
       FindAppByExternalIDWithAuditRow.AppExtlID row;
     FindAppByExternalIDRow.OrgID :=
       FindAppByExternalIDWithAuditRow.OrgID row;
     FindAppByExternalIDRow.OrgExtlID :=
       FindAppByExternalIDWithAuditRow.OrgExtlID row;
     FindAppByExternalIDRow.OrgName :=
       FindAppByExternalIDWithAuditRow.OrgName row;
     FindAppByExternalIDRow.OrgDescription :=
       FindAppByExternalIDWithAuditRow.OrgDescription row;
     FindAppByExternalIDRow.OrgKindID :=
       FindAppByExternalIDWithAuditRow.OrgKindID row;
     FindAppByExternalIDRow.OrgKindExtlID :=
       FindAppByExternalIDWithAuditRow.OrgKindExtlID row;
     FindAppByExternalIDRow.OrgKindDesc :=
       FindAppByExternalIDWithAuditRow.OrgKindDesc row;
     FindAppByExternalIDRow.AppName :=
       FindAppByExternalIDWithAuditRow.AppName row;
     FindAppByExternalIDRow.AppDescription :=
       FindAppByExternalIDWithAuditRow.AppDescription row |}.

Definition is_lookup (ev : Event) : bool :=
  match ev with
  | EvFindAppByExternalID _ | EvFindAppByExternalIDWithAudit _ => true
  | _ => false
  end.

Definition is_begin (ev : Event) : bool :=
  match ev with
  | EvBeginTx => true
  | _ => false
  end.

Definition is_rollback (ev : Event) : bool :=
  match ev with
  | EvRollbackTx => true
  | _ => false
  end.

(** The call that ends a transaction. *)
Definition is_end (ev : Event) : bool := is_commit ev || is_rollback ev.

(** A delete that came back with an error, or with a row count the code
    refuses: below 1 for the key rows, other than 1 for the App row. *)
Definition failed_delete (ev : Event) : bool :=
  match ev with
  | EvDeleteAppAPIKeys _ (inl n) => n <? 1
  | EvDeleteApp _ (inl n) => negb (n =? 1)
  | EvDeleteAppAPIKeys _ (inr _) | EvDeleteApp _ (inr _) => true
  | _ => false
  end.

(** What follows a transaction that began: writes, then one commit or
    rollback, then nothing. *)
Fixpoint tx_body (evs : list Event) : bool :=
  match evs with
  | [] => false
  | ev :: rest =>
      match rest with
      | [] => is_end ev
      | _ :: _ => is_write ev && tx_body rest
      end
  end.

(** What follows [BeginTx]: nothing, when it failed, or the body of the
    transaction. *)
Definition after_begin (evs : list Event) : bool :=
  match evs with
  | [] => true
  | _ :: _ => tx_body evs
  end.

(** The log of a call that looks up at most once, outside any transaction,
    and then runs at most one transaction, begun once and ended once. *)
Definition one_transaction (evs : list Event) : bool :=
  match evs with
  | [] => true
  | EvBeginTx :: rest => after_begin rest
  | ev :: rest =>
      is_lookup ev
      && match rest with
         | [] => true
         | EvBeginTx :: rest' => after_begin rest'
         | _ :: _ => false
         end
  end.

(** The seeded tables after the rows of [Mem.twoKeys] went in for the app
    100. *)
Definition withTwoKeys : Mem.Tables :=
  Mem.mkTables [Mem.rootRow]
    (map (createAppAPIKeyParams Mem.adt1 100%N) Mem.twoKeys)
    [Mem.alice; Mem.bob] Mem.noFaults.

(** * Properties *)

Section Props.

Variable R : Runtime.
Variable E : Engine.
Implicit Types (w : World R E) (s : AppService R).

(** ** The log of one run *)

Lemma skipn_length_app (A : Type) (l evs : list A) :
  skipn (List.length l) (l ++ evs) = evs.
Proof. induction l; simpl; auto. Qed.

Lemma events_since_app w g p evs :
  events_since w (mkWorld g p (log w ++ evs)) = evs.
Proof. unfold events_since; simpl. apply skipn_length_app. Qed.

Lemma events_since_nil w g p :
  events_since w (mkWorld g p (log w)) = [].
Proof.
  pose proof (events_since_app w g p []) as H.
  rewrite app_nil_r in H. exact H.
Qed.

(** ** Running the code symbolically

    [run_all] unfolds a call down to the answers of the engine and the
    runtime and splits on each of them, so that every path of the Go
    function is one goal; [in_events] and [split_events] then read the
    log of the path. *)

Ltac unfold_go :=
  unfold Create, Update, Delete, Create_newApp, AddNewKey,
    findAppByExternalID, findAppByExternalIDWithAudit,
    appstore_FindAppByExternalID, appstore_FindAppByExternalIDWithAudit,
    appstore_CreateApp, appstore_CreateAppAPIKey, appstore_UpdateApp,
    appstore_DeleteAppAPIKeys, appstore_DeleteApp,
    BeginTx, CommitTx, RollbackTx, Pool, MustParseIdentifier,
    emit, draw, bind, ret in *;
  simpl in *.

Ltac break_hyp :=
  match goal with
  | H : context [match ?x with _ => _ end] |- _ =>
      lazymatch x with
      | context [match _ with _ => _ end] => fail
      | _ => destruct x eqn:?
      end
  end.

Ltac break_goal :=
  match goal with
  | |- context [match ?x with _ => _ end] =>
      lazymatch x with
      | context [match _ with _ => _ end] => fail
      | _ => destruct x eqn:?
      end
  end.

Ltac norm_log :=
  repeat rewrite <- app_assoc in *; simpl app in *;
  repeat rewrite events_since_app in *;
  repeat rewrite events_since_nil in *.

Ltac finish_run :=
  repeat match goal with
  | H : (_, _) = (_, _) |- _ => inversion H; clear H; subst
  | H : Some _ = Some _ |- _ => inversion H; clear H; subst
  | H : inl _ = inl _ |- _ => inversion H; clear H; subst
  | H : inr _ = inr _ |- _ => inversion H; clear H; subst
  | H : Some _ = None |- _ => discriminate H
  | H : None = Some _ |- _ => discriminate H
  | H : inl _ = inr _ |- _ => discriminate H
  | H : inr _ = inl _ |- _ => discriminate H
  end.

Ltac run_all :=
  repeat first [progress unfold_go | break_hyp]; finish_run; norm_log;
  simpl in *; try discriminate.

Ltac contradict_flags :=
  repeat match goal with
  | H : negb _ = false |- _ => rewrite H in *
  | H : negb _ = true |- _ => rewrite H in *
  | H : (_ <? _) = _ |- _ => rewrite H in *
  end;
  simpl in *; try discriminate.

Ltac in_events :=
  repeat match goal with
  | H : In _ (_ :: _) |- _ => simpl in H
  | H : In _ [] |- _ => simpl in H
  | H : _ \/ _ |- _ => destruct H as [H | H]
  | H : False |- _ => contradiction
  | H : @eq Event _ _ |- _ =>
      first [discriminate H | inversion H; clear H; subst]
  end.

Ltac split_events H :=
  repeat match type of H with
  | _ = (?l ++ _ :: _)%list =>
      destruct l; simpl in H;
      [ try discriminate H; inversion H; clear H; subst
      | try discriminate H; injection H as ? H; subst ]
  end.

(** ** Lookups of an unknown external ID *)

(** Whatever the query answers, the error the lookup hands to [Update] is
    an [*errs.Error] of kind Database, never the sentinel itself. *)
Lemma findAppByExternalIDWithAudit_error dbtx extlID w err w1 :
  findAppByExternalIDWithAudit dbtx extlID w = (Some (inr err), w1) ->
  is_ErrNoRows err = false /\ KindOf err = errs.Database.
Proof. intro H. run_all. auto. Qed.

Lemma findAppByExternalID_error dbtx extlID w err w1 :
  findAppByExternalID dbtx extlID w = (Some (inr err), w1) ->
  is_ErrNoRows err = false /\ KindOf err = errs.Database.
Proof. intro H. run_all. auto. Qed.

(** When the query finds no row, [Update] answers a Database-kind error. *)
Lemma Update_ErrNoRows s r adt w :
  FindAppByExternalIDWithAudit E (UpdateAppRequest.ExternalID r) (pool w)
    = inr ErrNoRows ->
  fst (Update s r adt w)
  = Some (inr (errs_E errs.Database (errs_E errs.Database ErrNoRows))).
Proof. intro H. unfold_go. rewrite H. reflexivity. Qed.

(** When the query finds no row, [Delete] answers a Database-kind error. *)
Lemma Delete_ErrNoRows s extlID w :
  FindAppByExternalID E extlID (pool w) = inr ErrNoRows ->
  fst (Delete s extlID w)
  = Some (inr (errs_E errs.Database (errs_E errs.Database ErrNoRows))).
Proof. intro H. unfold_go. rewrite H. reflexivity. Qed.

(** ** Create and Update under a failing write *)

(** C2.  In a run of [Create], and in a run of [Update], if an insert or
    update came back with an error or with a row count other than 1, then
    the call returns a Database-kind error, the last thing it did was the
    rollback, it never committed, and the committed tables are the ones it
    started from. *)
Theorem failed_write_rolls_back :
  (forall s r adt w out w',
      Create s r adt w = (out, w') ->
      existsb failed_write (events_since w w') = true ->
      (exists err, out = Some (inr err) /\ KindOf err = errs.Database)
      /\ last (events_since w w') EvBeginTx = EvRollbackTx
      /\ existsb is_commit (events_since w w') = false
      /\ pool w' = pool w)
  /\
  (forall s r adt w out w',
      Update s r adt w = (out, w') ->
      existsb failed_write (events_since w w') = true ->
      (exists err, out = Some (inr err) /\ KindOf err = errs.Database)
      /\ last (events_since w w') EvBeginTx = EvRollbackTx
      /\ existsb is_commit (events_since w w') = false
      /\ pool w' = pool w).
Proof.
  split; intros s r adt w out w' H F; run_all;
    try (repeat split; eauto; fail); contradict_flags.
Qed.

(** ** Update *)

(** C3.  A successful [Update] answers with the aggregate it read, in
    which only Name, Description and [Last] were overwritten: [First] is
    the one read from storage, [Last] is the given audit, Org is the one
    read.  Its only write is one [UpdateApp] whose parameters are the
    request's name and description, the update columns of the audit and
    the id of the row. *)
Theorem Update_success_frame s r adt w resp w' :
  Update s r adt w = (Some (inl resp), w') ->
  exists aa w1,
    findAppByExternalIDWithAudit (pool w) (UpdateAppRequest.ExternalID r) w
      = (Some (inl aa), w1)
    /\ resp = newAppResponse R (Update_override aa r adt)
    /\ create_fields resp
       = audit_fields R (SimpleAudit.First (appAudit.SimpleAudit aa))
    /\ update_fields resp = audit_fields R adt
    /\ SimpleAudit.First (appAudit.SimpleAudit (Update_override aa r adt))
       = SimpleAudit.First (appAudit.SimpleAudit aa)
    /\ SimpleAudit.Last (appAudit.SimpleAudit (Update_override aa r adt))
       = adt
    /\ App.Org (appAudit.App (Update_override aa r adt))
       = App.Org (appAudit.App aa)
    /\ filter is_write (events_since w w')
       = [EvUpdateApp
            {| UpdateAppParams.AppName := UpdateAppRequest.Name r;
               UpdateAppParams.AppDescription := UpdateAppRequest.Description r;
               UpdateAppParams.UpdateAppID := App.ID (Audit.App adt);
               UpdateAppParams.UpdateUserID :=
                 NewNullUUID (User.ID (Audit.User adt));
               UpdateAppParams.UpdateTimestamp := Audit.Moment adt;
               UpdateAppParams.AppID := App.ID (appAudit.App aa) |}
            (inl 1)].
Proof.
  intro H. run_all.
  do 2 eexists. split; [reflexivity|].
  repeat split.
  match goal with
  | Hb : negb (_ =? 1) = false |- _ =>
      apply negb_false_iff, Z.eqb_eq in Hb; subst
  end.
  reflexivity.
Qed.

(** C5, as the code has it.  The response of a successful [Update] has no
    API keys: the lookup hydrates the App with [APIKeys = nil] and nothing
    reads the key rows. *)
Theorem Update_success_APIKeys_empty s r adt w resp w' :
  Update s r adt w = (Some (inl resp), w') ->
  AppResponse.APIKeys resp = [].
Proof. intro H. run_all. reflexivity. Qed.

(** ** Create *)

(** C4.  In the response of a successful [Create] the create fields equal
    the update fields and both are those of the given audit; the response
    is built from [First = Last = adt]; the create and the update columns
    of the App insert and of the key insert are those of the audit, and
    both inserts were made. *)
Theorem Create_success_audit s r adt w resp w' :
  Create s r adt w = (Some (inl resp), w') ->
  create_fields resp = update_fields resp
  /\ create_fields resp = audit_fields R adt
  /\ (exists a,
        resp = newAppResponse R
                 {| appAudit.App := a;
                    appAudit.SimpleAudit :=
                      {| SimpleAudit.First := adt;
                         SimpleAudit.Last := adt |} |})
  /\ (forall p res, In (EvCreateApp p res) (events_since w w') ->
        app_create_columns p = audit_columns adt
        /\ app_update_columns p = audit_columns adt)
  /\ (forall p res, In (EvCreateAppAPIKey p res) (events_since w w') ->
        key_create_columns p = audit_columns adt
        /\ key_update_columns p = audit_columns adt)
  /\ existsb is_app_insert (events_since w w') = true
  /\ existsb is_key_insert (events_since w w') = true.
Proof.
  intro H. run_all.
  repeat split; eauto; in_events; reflexivity.
Qed.

(** C7.  The App that [Create] builds has the Org of the audit's App, the
    id drawn from [uuid.New] and the external id drawn from
    [secure.NewID]; the inserted row has that Org's id, that id and that
    external id, whatever the request holds; a successful call inserted
    the row and answers with that external id. *)
Theorem Create_Org_from_audit s r adt w out w' :
  Create s r adt w = (out, w') ->
  let ID := fst (uuid_New R (rng w)) in
  let ExternalID := fst (secure_NewID R (snd (uuid_New R (rng w)))) in
  (forall a err w1,
      Create_newApp s r adt w = (Some (a, err), w1) ->
      App.Org a = App.Org (Audit.App adt)
      /\ App.ID a = ID
      /\ App.ExternalID a = ExternalID)
  /\ (forall p res,
        In (EvCreateApp p res) (events_since w w') ->
        CreateAppParams.OrgID p = Org.ID (App.Org (Audit.App adt))
        /\ CreateAppParams.AppID p = ID
        /\ CreateAppParams.AppExtlID p = Identifier.String ExternalID)
  /\ (forall resp,
        out = Some (inl resp) ->
        AppResponse.ExternalID resp = Identifier.String ExternalID
        /\ existsb is_app_insert (events_since w w') = true).
Proof.
  intros H ID ExternalID. subst ID ExternalID. split; [|split].
  - intros a err w1 HN. clear H. run_all; auto.
  - intros p res HIn. run_all; in_events; auto.
  - intros resp ->. run_all; auto.
Qed.

(** C8.  When key generation succeeds the new App holds exactly one key,
    dated 2099-12-31 00:00:00 UTC; every key row [Create] inserts has that
    deactivation date and it inserts at most one; a successful call
    inserted exactly one and answers with exactly one key, of that date. *)
Theorem Create_one_key_far_future s r adt w out w' :
  Create s r adt w = (out, w') ->
  (forall a w1,
      Create_newApp s r adt w = (Some (a, None), w1) ->
      exists key, App.APIKeys a = [key]
                  /\ APIKey.DeactivationDate key = farFuture)
  /\ (forall p res,
        In (EvCreateAppAPIKey p res) (events_since w w') ->
        CreateAppAPIKeyParams.DeactvDate p = farFuture)
  /\ (List.length (filter is_key_insert (events_since w w')) <= 1)%nat
  /\ (forall resp,
        out = Some (inl resp) ->
        List.length (filter is_key_insert (events_since w w')) = 1%nat
        /\ exists k,
            AppResponse.APIKeys resp
            = [APIKeyResponse.mk k (Time_String R farFuture)]).
Proof.
  intros H. split; [|split; [|split]].
  - intros a w1 HN. clear H. run_all. eexists; split; reflexivity.
  - intros p res HIn. run_all; in_events; reflexivity.
  - run_all; lia.
  - intros resp ->. run_all. split; [reflexivity | eexists; reflexivity].
Qed.

(** The loop that inserts the keys reads a key through its ciphertext and
    its deactivation date only. *)
Lemma Create_APIKeys_ciphertext_only adt aID keys :
  forall keys' tx w,
    map APIKey.Ciphertext keys = map APIKey.Ciphertext keys' ->
    map APIKey.DeactivationDate keys = map APIKey.DeactivationDate keys' ->
    Create_APIKeys adt aID keys tx w = Create_APIKeys adt aID keys' tx w.
Proof.
  induction keys as [|key keys IH]; intros [|key' keys'] tx w HC HD;
    simpl in HC, HD; try discriminate; [reflexivity|].
  injection HC as HC1 HC2. injection HD as HD1 HD2.
  simpl. rewrite HC1, HD1.
  unfold bind, appstore_CreateAppAPIKey, emit, ret; simpl.
  repeat break_goal; try reflexivity.
  apply IH; assumption.
Qed.

(** C9.  Every key row [Create] inserts is made of the ciphertext and the
    deactivation date of a generated key, the id of the App and the audit
    columns; the plaintext keys are what a successful call answers with.
    The inserting loop gives the same calls, answers and worlds for two
    lists of keys that differ in their plaintexts only. *)
Theorem Create_persists_no_plaintext s r adt w out w' :
  Create s r adt w = (out, w') ->
  (forall a w1,
      Create_newApp s r adt w = (Some (a, None), w1) ->
      (forall p res,
          In (EvCreateAppAPIKey p res) (events_since w w') ->
          exists key,
            In key (App.APIKeys a)
            /\ CreateAppAPIKeyParams.ApiKey p = APIKey.Ciphertext key
            /\ CreateAppAPIKeyParams.DeactvDate p = APIKey.DeactivationDate key
            /\ CreateAppAPIKeyParams.AppID p = App.ID a
            /\ key_create_columns p = audit_columns adt
            /\ key_update_columns p = audit_columns adt)
      /\ (forall resp,
            out = Some (inl resp) ->
            map APIKeyResponse.Key (AppResponse.APIKeys resp)
            = map APIKey.Key (App.APIKeys a)))
  /\ (forall aID keys keys' tx w0,
        map APIKey.Ciphertext keys = map APIKey.Ciphertext keys' ->
        map APIKey.DeactivationDate keys
        = map APIKey.DeactivationDate keys' ->
        Create_APIKeys adt aID keys tx w0
        = Create_APIKeys adt aID keys' tx w0).
Proof.
  intro H. split.
  - intros a w1 HN. split.
    + intros p res HIn. run_all; in_events.
      all: eexists; split; [left; reflexivity | repeat split].
    + intros resp ->. run_all. reflexivity.
  - intros. apply Create_APIKeys_ciphertext_only; assumption.
Qed.

(** C10.  When key generation fails, [Create] returns that very error in
    the world key generation left: no call reached the database, no
    transaction was begun, and the committed tables are untouched. *)
Theorem Create_key_failure_no_transaction s r adt w a err w1 :
  Create_newApp s r adt w = (Some (a, Some err), w1) ->
  Create s r adt w = (Some (inr err), w1)
  /\ events_since w w1 = []
  /\ pool w1 = pool w.
Proof.
  intro H. unfold Create, bind. rewrite H. simpl. split; [reflexivity|].
  run_all; auto.
Qed.

(** ** Delete *)

(** C6.  In a run of [Delete], a delete of the App row comes after a
    delete of the key rows of the same App that affected at least one row;
    if the delete of the key rows affected no row (any count below 1), the
    call returns a Database-kind error, the rollback was the last thing it
    did, no delete of the App row was made, nothing was committed and the
    committed tables are the ones it started from; and when the lookup
    finds the App and the transaction begins, the key rows of that App are
    deleted and no other App row can be. *)
Theorem Delete_keys_before_app s extlID w out w' :
  Delete s extlID w = (out, w') ->
  (forall evs1 id res evs2,
      events_since w w' = (evs1 ++ EvDeleteApp id res :: evs2)%list ->
      exists n, In (EvDeleteAppAPIKeys id (inl n)) evs1 /\ 1 <= n)
  /\ (forall id n,
        In (EvDeleteAppAPIKeys id (inl n)) (events_since w w') ->
        n < 1 ->
        (exists err, out = Some (inr err) /\ KindOf err = errs.Database)
        /\ last (events_since w w') EvBeginTx = EvRollbackTx
        /\ existsb is_app_delete (events_since w w') = false
        /\ existsb is_commit (events_since w w') = false
        /\ pool w' = pool w)
  /\ (forall a w1,
        findAppByExternalID (pool w) extlID w = (Some (inl a), w1) ->
        Begin E (pool w) = None ->
        (exists res, In (EvDeleteAppAPIKeys (App.ID a) res)
                        (events_since w w'))
        /\ forall id res, In (EvDeleteApp id res) (events_since w w') ->
                          id = App.ID a).
Proof.
  intro H. split; [|split].
  - intros evs1 id res evs2 HE. run_all; split_events HE.
    all: match goal with
         | Hb : (?z <? 1) = false |- _ =>
             exists z; split; [simpl; auto | apply Z.ltb_ge in Hb; lia]
         end.
  - intros id n HIn Hlt. run_all; in_events.
    all: try (repeat split; eauto; fail).
    all: match goal with
         | Hb : (_ <? 1) = false |- _ => apply Z.ltb_ge in Hb; lia
         end.
  - intros a w1 HF HB. run_all; try congruence.
    all: split; [eexists; simpl; eauto | intros; in_events; reflexivity].
Qed.

(** * Further properties of the code *)

(** ** The loop over the keys (app.go:146-171) *)

(** Every run of the loop leaves the committed tables and the random
    source alone and only adds calls to the log.  Either every key was
    inserted, each insert affecting one row; or the loop stopped at the
    first insert that did not, rolled back, and handed a Database-kind
    error to [Create]. *)
Lemma Create_APIKeys_run adt aID keys :
  forall tx w out w',
    Create_APIKeys adt aID keys tx w = (out, w') ->
    exists evs,
      w' = mkWorld (rng w) (pool w) (log w ++ evs)
      /\ ((exists tx',
             out = Some (None, tx')
             /\ evs = map (key_inserted adt aID) keys
             /\ tx' = fold_left
                        (fun t key =>
                           snd (CreateAppAPIKey E
                                  (createAppAPIKeyParams adt aID key) t))
                        keys tx)
          \/ (exists err tx' done key rest res,
                out = Some (Some err, tx')
                /\ keys = (done ++ key :: rest)%list
                /\ one_row res = false
                /\ evs = (map (key_inserted adt aID) done
                          ++ [EvCreateAppAPIKey
                                (createAppAPIKeyParams adt aID key) res;
                              EvRollbackTx])%list
                /\ KindOf err = errs.Database)).
Proof.
  induction keys as [|key keys IH]; intros tx w out w' H.
  - simpl in H. unfold ret in H. inversion H; subst.
    exists []. split; [destruct w'; simpl; rewrite app_nil_r; reflexivity|].
    left. eexists. repeat split.
  - simpl in H.
    unfold bind, appstore_CreateAppAPIKey, RollbackTx, emit, ret in H.
    simpl in H.
    fold (createAppAPIKeyParams adt aID key) in H.
    destruct (CreateAppAPIKey E (createAppAPIKeyParams adt aID key) tx)
      as [res d] eqn:Hq.
    simpl in H.
    destruct res as [n | e].
    + destruct (negb (n =? 1)) eqn:Hn.
      * exists [EvCreateAppAPIKey (createAppAPIKeyParams adt aID key) (inl n);
                EvRollbackTx].
        destruct (Rollback E d); inversion H; subst; simpl;
          (split; [rewrite <- app_assoc; reflexivity|]);
          right; eexists; eexists; exists [], key, keys, (inl n);
          (repeat split; simpl; auto;
           apply negb_true_iff; exact Hn).
      * apply negb_false_iff, Z.eqb_eq in Hn. subst n.
        apply IH in H. destruct H as (evs & Hw & Hcase). simpl in Hw.
        exists (key_inserted adt aID key :: evs).
        split.
        { rewrite Hw. rewrite <- app_assoc. reflexivity. }
        destruct Hcase as [(tx' & Ho & He & Ht)
                          | (err & tx' & done & k & rest & res & Ho & Hk & Hr
                             & He & Hd)].
        -- left. exists tx'. repeat split; auto.
           ++ simpl. rewrite He. reflexivity.
           ++ simpl. rewrite Hq. exact Ht.
        -- right. exists err, tx', (key :: done), k, rest, res.
           repeat split; auto.
           ++ simpl. rewrite Hk. reflexivity.
           ++ simpl. rewrite He. reflexivity.
    + exists [EvCreateAppAPIKey (createAppAPIKeyParams adt aID key) (inr e);
              EvRollbackTx].
      destruct (Rollback E d); inversion H; subst; simpl;
        (split; [rewrite <- app_assoc; reflexivity|]);
        right; eexists; eexists; exists [], key, keys, (inr e);
        repeat split; simpl; auto.
Qed.

(** X1.  When the loop over the keys ends without an error, it made one
    insert per key, in the order of the list and each affecting one row,
    and nothing else; the transaction holds the inserts applied one after
    the other, and the committed tables are untouched. *)
Theorem Create_APIKeys_all_inserted adt aID keys tx w tx' w' :
  Create_APIKeys adt aID keys tx w = (Some (None, tx'), w') ->
  events_since w w' = map (key_inserted adt aID) keys
  /\ tx' = fold_left
             (fun t key =>
                snd (CreateAppAPIKey E (createAppAPIKeyParams adt aID key) t))
             keys tx
  /\ pool w' = pool w
  /\ rng w' = rng w.
Proof.
  intro H. apply Create_APIKeys_run in H.
  destruct H as (evs & Hw & [(t & Ho & He & Ht) | Hfail]).
  - inversion Ho; subst. rewrite events_since_app. auto.
  - destruct Hfail as (? & ? & ? & ? & ? & ? & Ho & _). discriminate Ho.
Qed.

(** X2.  When the loop over the keys ends with an error, the keys before
    the failing one were inserted, the failing insert came back with an
    error or a row count other than 1, the rollback followed at once, no
    later key was tried, the error is of kind Database and the committed
    tables are untouched. *)
Theorem Create_APIKeys_stops_at_first_failure adt aID keys tx w err tx' w' :
  Create_APIKeys adt aID keys tx w = (Some (Some err, tx'), w') ->
  exists done key rest res,
    keys = (done ++ key :: rest)%list
    /\ one_row res = false
    /\ events_since w w'
       = (map (key_inserted adt aID) done
          ++ [EvCreateAppAPIKey (createAppAPIKeyParams adt aID key) res;
              EvRollbackTx])%list
    /\ KindOf err = errs.Database
    /\ pool w' = pool w.
Proof.
  intro H. apply Create_APIKeys_run in H.
  destruct H as (evs & Hw & [(t & Ho & _) | Hfail]); [discriminate Ho|].
  destruct Hfail as (e & t & done & key & rest & res & Ho & Hk & Hr & He & Hd).
  inversion Ho; subst.
  exists done, key, rest, res. rewrite events_since_app. auto.
Qed.

(** The loop never panics. *)
Lemma Create_APIKeys_returns adt aID keys tx w :
  fst (Create_APIKeys adt aID keys tx w) <> None.
Proof.
  destruct (Create_APIKeys adt aID keys tx w) as [out w'] eqn:H.
  apply Create_APIKeys_run in H.
  destruct H as (evs & _ & [(t & Ho & _) | (? & ? & ? & ? & ? & ? & Ho & _)]);
    simpl; rewrite Ho; discriminate.
Qed.

(** ** Successful calls *)

Ltac one_row_answers :=
  repeat match goal with
  | Hb : negb (_ =? 1) = false |- _ =>
      apply negb_false_iff, Z.eqb_eq in Hb; subst
  end.

Ltac use_answers :=
  repeat match goal with
  | Hq : ?f = (_, _) |- context [?f] => rewrite Hq; simpl
  end.

(** X3.  A successful [Create] made exactly four store calls: it began a
    transaction, inserted the App row, inserted the row of the one
    generated key, each affecting one row, and committed.  The committed
    tables are then the two inserts applied to the tables it started
    from, and the response carries the request's name and description. *)
Theorem Create_success_commits_inserts s r adt w resp w' :
  Create s r adt w = (Some (inl resp), w') ->
  exists a w1 key,
    Create_newApp s r adt w = (Some (a, None), w1)
    /\ App.APIKeys a = [key]
    /\ events_since w w'
       = [EvBeginTx;
          EvCreateApp (createAppParams a adt) (inl 1);
          key_inserted adt (App.ID a) key;
          EvCommitTx None]
    /\ pool w'
       = snd (CreateAppAPIKey E (createAppAPIKeyParams adt (App.ID a) key)
                (snd (CreateApp E (createAppParams a adt) (pool w))))
    /\ AppResponse.Name resp = CreateAppRequest.Name r
    /\ AppResponse.Description resp = CreateAppRequest.Description r.
Proof.
  intro H. run_all. one_row_answers.
  do 3 eexists. split; [reflexivity|]. split; [reflexivity|].
  unfold key_inserted, createAppParams, createAppAPIKeyParams; simpl.
  use_answers. repeat split.
Qed.

(** X4.  A successful [Update] made exactly four store calls: the lookup
    through the pool, outside any transaction, then begin, one update of
    the row that was read, affecting one row, and commit.  The committed
    tables are then that update applied to the tables it started from, and
    the response carries the request's name and description and the
    stored external id. *)
Theorem Update_success_commits_update s r adt w resp w' :
  Update s r adt w = (Some (inl resp), w') ->
  exists aa w1,
    findAppByExternalIDWithAudit (pool w) (UpdateAppRequest.ExternalID r) w
      = (Some (inl aa), w1)
    /\ events_since w w'
       = [EvFindAppByExternalIDWithAudit (UpdateAppRequest.ExternalID r);
          EvBeginTx;
          EvUpdateApp (updateAppParams aa r adt) (inl 1);
          EvCommitTx None]
    /\ pool w' = snd (UpdateApp E (updateAppParams aa r adt) (pool w))
    /\ AppResponse.Name resp = UpdateAppRequest.Name r
    /\ AppResponse.Description resp = UpdateAppRequest.Description r
    /\ AppResponse.ExternalID resp
       = Identifier.String (App.ExternalID (appAudit.App aa)).
Proof.
  intro H. run_all. one_row_answers.
  do 2 eexists. split; [reflexivity|].
  unfold updateAppParams; simpl. use_answers. repeat split.
Qed.

(** X5.  A successful [Delete] answers with the external id it was given
    and [Deleted = true].  It made exactly five store calls: the lookup
    through the pool, begin, the delete of the key rows of the App found,
    affecting at least one row, the delete of its App row, affecting one
    row, and commit; the committed tables are then the two deletes applied
    to the tables it started from. *)
Theorem Delete_success s extlID w resp w' :
  Delete s extlID w = (Some (inl resp), w') ->
  resp = {| DeleteResponse.ExternalID := extlID;
            DeleteResponse.Deleted := true |}
  /\ exists a w1 n,
      findAppByExternalID (pool w) extlID w = (Some (inl a), w1)
      /\ 1 <= n
      /\ events_since w w'
         = [EvFindAppByExternalID extlID;
            EvBeginTx;
            EvDeleteAppAPIKeys (App.ID a) (inl n);
            EvDeleteApp (App.ID a) (inl 1);
            EvCommitTx None]
      /\ pool w'
         = snd (DeleteApp E (App.ID a)
                  (snd (DeleteAppAPIKeys E (App.ID a) (pool w)))).
Proof.
  intro H. run_all. one_row_answers.
  split; [reflexivity|].
  do 3 eexists. split; [reflexivity|].
  match goal with
  | Hb : (_ <? 1) = false |- _ => apply Z.ltb_ge in Hb
  end.
  simpl. use_answers. repeat split; auto.
Qed.

(** ** Failing calls *)

(** X6.  In a run of [Delete], if either delete came back with an error,
    or the delete of the key rows affected fewer than one row, or the
    delete of the App row a number of rows other than one, then the call
    returns a Database-kind error, the rollback was the last thing it
    did, nothing was committed and the committed tables are the ones it
    started from: key rows deleted in the transaction are back. *)
Theorem Delete_failed_write_rolls_back s extlID w out w' :
  Delete s extlID w = (out, w') ->
  existsb failed_delete (events_since w w') = true ->
  (exists err, out = Some (inr err) /\ KindOf err = errs.Database)
  /\ last (events_since w w') EvBeginTx = EvRollbackTx
  /\ existsb is_commit (events_since w w') = false
  /\ pool w' = pool w.
Proof.
  intros H F. run_all;
    try (repeat split; eauto; fail); contradict_flags.
Qed.

(** X7.  When the transaction cannot be begun, each of [Create], [Update]
    and [Delete] returns the error of [BeginTx] as it is, and [BeginTx]
    was its last store call: no write, no commit and no rollback were
    tried, and the committed tables are untouched. *)
Theorem BeginTx_failure_returned :
  (forall s r adt w out w' e,
      Create s r adt w = (out, w') ->
      In EvBeginTx (events_since w w') ->
      Begin E (pool w) = Some e ->
      out = Some (inr e)
      /\ events_since w w' = [EvBeginTx]
      /\ pool w' = pool w)
  /\ (forall s r adt w out w' e,
        Update s r adt w = (out, w') ->
        In EvBeginTx (events_since w w') ->
        Begin E (pool w) = Some e ->
        out = Some (inr e)
        /\ events_since w w'
           = [EvFindAppByExternalIDWithAudit (UpdateAppRequest.ExternalID r);
              EvBeginTx]
        /\ pool w' = pool w)
  /\ (forall s extlID w out w' e,
        Delete s extlID w = (out, w') ->
        In EvBeginTx (events_since w w') ->
        Begin E (pool w) = Some e ->
        out = Some (inr e)
        /\ events_since w w' = [EvFindAppByExternalID extlID; EvBeginTx]
        /\ pool w' = pool w).
Proof.
  split; [|split]; intros until e; intros H HIn HB;
    run_all; in_events; try congruence; auto.
Qed.

(** X8.  When the commit fails, each of [Create], [Update] and [Delete]
    returns the error of [CommitTx] as it is; the commit was its last
    store call, so no rollback was tried; and every write before it had
    come back as the code requires. *)
Theorem CommitTx_failure_returned :
  (forall s r adt w out w' e,
      Create s r adt w = (out, w') ->
      In (EvCommitTx (Some e)) (events_since w w') ->
      out = Some (inr e)
      /\ last (events_since w w') EvBeginTx = EvCommitTx (Some e)
      /\ existsb is_rollback (events_since w w') = false
      /\ existsb failed_write (events_since w w') = false)
  /\ (forall s r adt w out w' e,
        Update s r adt w = (out, w') ->
        In (EvCommitTx (Some e)) (events_since w w') ->
        out = Some (inr e)
        /\ last (events_since w w') EvBeginTx = EvCommitTx (Some e)
        /\ existsb is_rollback (events_since w w') = false
        /\ existsb failed_write (events_since w w') = false)
  /\ (forall s extlID w out w' e,
        Delete s extlID w = (out, w') ->
        In (EvCommitTx (Some e)) (events_since w w') ->
        out = Some (inr e)
        /\ last (events_since w w') EvBeginTx = EvCommitTx (Some e)
        /\ existsb is_rollback (events_since w w') = false
        /\ existsb failed_delete (events_since w w') = false).
Proof.
  split; [|split]; intros until e; intros H HIn;
    run_all; in_events; contradict_flags; auto.
Qed.

(** X9.  When the lookup query fails, with whatever error, [Update] and
    [Delete] return a Database-kind error and the lookup was their only
    store call: no transaction is begun, and the committed tables and the
    random source are untouched. *)
Theorem lookup_failure_begins_no_transaction :
  (forall s r adt w out w' cause,
      Update s r adt w = (out, w') ->
      FindAppByExternalIDWithAudit E (UpdateAppRequest.ExternalID r) (pool w)
        = inr cause ->
      (exists err, out = Some (inr err) /\ KindOf err = errs.Database)
      /\ events_since w w'
         = [EvFindAppByExternalIDWithAudit (UpdateAppRequest.ExternalID r)]
      /\ pool w' = pool w
      /\ rng w' = rng w)
  /\ (forall s extlID w out w' cause,
        Delete s extlID w = (out, w') ->
        FindAppByExternalID E extlID (pool w) = inr cause ->
        (exists err, out = Some (inr err) /\ KindOf err = errs.Database)
        /\ events_since w w' = [EvFindAppByExternalID extlID]
        /\ pool w' = pool w
        /\ rng w' = rng w).
Proof.
  split; intros until cause; intros H HF;
    run_all; try congruence; repeat split; eauto.
Qed.

(** ** The two lookups *)

(** X10.  The two lookups hydrate the same App: when the row with audit
    agrees with the plain row on the columns they share, the App inside
    the aggregate that [findAppByExternalIDWithAudit] returns is the App
    that [findAppByExternalID] returns. *)
Theorem lookups_hydrate_same_App dbtx extlID w row rowA aa w1 :
  FindAppByExternalID E extlID dbtx = inl row ->
  FindAppByExternalIDWithAudit E extlID dbtx = inl rowA ->
  shared_columns rowA = row ->
  findAppByExternalIDWithAudit dbtx extlID w = (Some (inl aa), w1) ->
  fst (findAppByExternalID dbtx extlID w) = Some (inl (appAudit.App aa)).
Proof.
  intros HR HA HS H. subst row. unfold_go.
  rewrite HA in H. rewrite HR. simpl in *.
  repeat break_hyp; finish_run. reflexivity.
Qed.

(** ** The order and the bracketing of the store calls *)

(** X11.  In a run of [Create], an insert of a key row comes after the
    insert of the App row it belongs to, and that insert affected one
    row. *)
Theorem Create_app_row_before_keys s r adt w out w' :
  Create s r adt w = (out, w') ->
  forall evs1 p res evs2,
    events_since w w' = (evs1 ++ EvCreateAppAPIKey p res :: evs2)%list ->
    exists pa,
      In (EvCreateApp pa (inl 1)) evs1
      /\ CreateAppParams.AppID pa = CreateAppAPIKeyParams.AppID p.
Proof.
  intros H evs1 p res evs2 HE. run_all; split_events HE.
  all: one_row_answers.
  all: eexists; split; [simpl; eauto | reflexivity].
Qed.

(** X12.  Every run of [Create], [Update] and [Delete] has the shape of
    [one_transaction]: at most one lookup, made before the transaction;
    at most one [BeginTx]; after it only writes, closed by exactly one
    commit or rollback as the last call.  A transaction that began is
    never left open. *)
Theorem one_transaction_per_call :
  (forall s r adt w out w',
      Create s r adt w = (out, w') ->
      one_transaction (events_since w w') = true
      /\ (In EvBeginTx (events_since w w') ->
          Begin E (pool w) = None ->
          is_end (last (events_since w w') EvBeginTx) = true))
  /\ (forall s r adt w out w',
        Update s r adt w = (out, w') ->
        one_transaction (events_since w w') = true
        /\ (In EvBeginTx (events_since w w') ->
            Begin E (pool w) = None ->
            is_end (last (events_since w w') EvBeginTx) = true))
  /\ (forall s extlID w out w',
        Delete s extlID w = (out, w') ->
        one_transaction (events_since w w') = true
        /\ (In EvBeginTx (events_since w w') ->
            Begin E (pool w) = None ->
            is_end (last (events_since w w') EvBeginTx) = true)).
Proof.
  split; [|split]; intros until w'; intro H;
    run_all; (split; [reflexivity | intros HIn HB; in_events;
                                    try congruence; reflexivity]).
Qed.

(** ** Panics *)


End Props.

(** * Concrete runs on the in-memory engine *)

(** C1.  On the seeded tables the lookup of "nope" finds no row, and both
    [Update] and [Delete] answer with an error whose kind is Database, not
    Validation: the lookup helpers wrap [pgx.ErrNoRows] in
    [errs.E(errs.Database, err)] before the callers compare the error with
    the sentinel. *)
Theorem unknown_ExternalID_Database_error :
  let w := Mem.world (Mem.seeded Mem.noFaults) in
  Mem.findRowWithAudit "nope" (pool w) = inr ErrNoRows
  /\ Mem.findRow "nope" (pool w) = inr ErrNoRows
  /\ (exists err,
        fst (Update Mem.service Mem.unknown Mem.adt2 w) = Some (inr err)
        /\ KindOf err = errs.Database
        /\ KindOf err <> errs.Validation)
  /\ (exists err,
        fst (Delete Mem.service "nope" w) = Some (inr err)
        /\ KindOf err = errs.Database
        /\ KindOf err <> errs.Validation).
Proof.
  intro w. split; [reflexivity|]. split; [reflexivity|]. split.
  - eexists. split.
    + apply (Update_ErrNoRows Mem.service Mem.unknown Mem.adt2 w).
      reflexivity.
    + split; [reflexivity | discriminate].
  - eexists. split.
    + apply (Delete_ErrNoRows Mem.service "nope" w). reflexivity.
    + split; [reflexivity | discriminate].
Qed.

(** The key insert of a [Create] affects no row after the App row went
    into the transaction, and the statement of an [Update] fails: both are
    rolled back and the committed tables are as before. *)
Lemma failed_write_rolls_back_witness :
  let w := Mem.world (Mem.seeded Mem.keyInsertAffectsNone) in
  let run := Create Mem.service Mem.billing Mem.adt1 w in
  let v := Mem.nextCall Mem.updateFails Mem.afterCreate in
  let run' := Update Mem.service Mem.rename Mem.adt2 v in
  (existsb failed_write (events_since w (snd run)) = true
   /\ (exists err, fst run = Some (inr err) /\ KindOf err = errs.Database)
   /\ last (events_since w (snd run)) EvBeginTx = EvRollbackTx
   /\ Mem.apps (pool (snd run)) = [Mem.rootRow]
   /\ pool (snd run) = pool w)
  /\
  (existsb failed_write (events_since v (snd run')) = true
   /\ (exists err, fst run' = Some (inr err) /\ KindOf err = errs.Database)
   /\ pool (snd run') = pool v).
Proof.
  intros w run v run'.
  destruct (failed_write_rolls_back Mem.runtime Mem.engine) as [HC HU].
  split.
  - destruct (HC Mem.service Mem.billing Mem.adt1 w (fst run) (snd run)
                eq_refl eq_refl) as (He & Hl & _ & Hp).
    split; [reflexivity|]. split; [exact He|]. split; [exact Hl|].
    split; [rewrite Hp; reflexivity | exact Hp].
  - destruct (HU Mem.service Mem.rename Mem.adt2 v (fst run') (snd run')
                eq_refl eq_refl) as (He & _ & _ & Hp).
    split; [reflexivity|]. split; [exact He | exact Hp].
Defined.

(** The rename of the spec's scenario: created at T1 by alice, updated at
    T2 by bob. *)
Lemma Update_success_frame_witness :
  let w := Mem.nextCall Mem.noFaults Mem.afterCreate in
  let w' := snd (Update Mem.service Mem.rename Mem.adt2 w) in
  Update Mem.service Mem.rename Mem.adt2 w = (Some (inl Mem.renamed), w')
  /\ create_fields Mem.renamed = create_fields Mem.created
  /\ update_fields Mem.renamed = audit_fields Mem.runtime Mem.adt2
  /\ List.length (filter is_write (events_since w w')) = 1%nat.
Proof.
  intros w w'.
  assert (Hrun : Update Mem.service Mem.rename Mem.adt2 w
                 = (Some (inl Mem.renamed), w'))
    by (vm_cast_no_check
          (eq_refl (Update Mem.service Mem.rename Mem.adt2 w))).
  destruct (Update_success_frame Mem.service Mem.rename Mem.adt2 w
              (resp := Mem.renamed) (w' := w') Hrun)
    as (aa & w1 & _ & _ & _ & Hu & _ & _ & _ & Hw).
  split; [exact Hrun|]. split; [reflexivity|]. split; [exact Hu|].
  rewrite Hw. reflexivity.
Defined.

Lemma Update_success_APIKeys_empty_witness :
  let w := Mem.nextCall Mem.noFaults Mem.afterCreate in
  let w' := snd (Update Mem.service Mem.rename Mem.adt2 w) in
  Update Mem.service Mem.rename Mem.adt2 w = (Some (inl Mem.renamed), w')
  /\ AppResponse.APIKeys Mem.renamed = [].
Proof.
  intros w w'.
  assert (Hrun : Update Mem.service Mem.rename Mem.adt2 w
                 = (Some (inl Mem.renamed), w'))
    by (vm_cast_no_check
          (eq_refl (Update Mem.service Mem.rename Mem.adt2 w))).
  split; [exact Hrun|].
  exact (Update_success_APIKeys_empty Mem.service Mem.rename Mem.adt2 w
           (resp := Mem.renamed) (w' := w') Hrun).
Defined.

(** C5 as the spec has it fails on the created app: one key row is stored
    for it, and the response of the rename lists none. *)
Lemma Update_response_omits_stored_keys :
  let w := Mem.nextCall Mem.noFaults Mem.afterCreate in
  fst (Update Mem.service Mem.rename Mem.adt2 w) = Some (inl Mem.renamed)
  /\ List.length (Mem.keysOf 100%N (pool w)) = 1%nat
  /\ ~ reflects_stored_keys Mem.runtime Mem.renamed
         (Mem.keysOf 100%N (pool w)).
Proof.
  intro w. split; [reflexivity|]. split; [reflexivity|].
  unfold reflects_stored_keys. simpl. discriminate.
Qed.

Lemma Create_success_audit_witness :
  let w := Mem.world (Mem.seeded Mem.noFaults) in
  let w' := snd (Create Mem.service Mem.billing Mem.adt1 w) in
  Create Mem.service Mem.billing Mem.adt1 w = (Some (inl Mem.created), w')
  /\ create_fields Mem.created = update_fields Mem.created
  /\ create_fields Mem.created = audit_fields Mem.runtime Mem.adt1
  /\ (forall p res, In (EvCreateApp p res) (events_since w w') ->
        app_create_columns p = audit_columns Mem.adt1
        /\ app_update_columns p = audit_columns Mem.adt1).
Proof.
  intros w w'.
  destruct (Create_success_audit Mem.service Mem.billing Mem.adt1 w
              (resp := Mem.created) (w' := w') eq_refl)
    as (H1 & H2 & _ & H4 & _).
  split; [reflexivity|]. split; [exact H1|]. split; [exact H2 | exact H4].
Defined.

Lemma Create_Org_from_audit_witness :
  let w := Mem.world (Mem.seeded Mem.noFaults) in
  let w' := snd (Create Mem.service Mem.billing Mem.adt1 w) in
  Create Mem.service Mem.billing Mem.adt1 w = (Some (inl Mem.created), w')
  /\ (forall p res, In (EvCreateApp p res) (events_since w w') ->
        CreateAppParams.OrgID p = 7%N
        /\ CreateAppParams.AppID p = 100%N
        /\ CreateAppParams.AppExtlID p = "x101")
  /\ AppResponse.ExternalID Mem.created = "x101".
Proof.
  intros w w'.
  pose proof (Create_Org_from_audit Mem.service Mem.billing Mem.adt1 w
                (out := Some (inl Mem.created)) (w' := w') eq_refl) as H.
  cbv zeta in H. destruct H as (_ & Hp & Hr).
  split; [reflexivity|]. split; [exact Hp|].
  exact (proj1 (Hr Mem.created eq_refl)).
Defined.

Lemma Create_one_key_far_future_witness :
  let w := Mem.world (Mem.seeded Mem.noFaults) in
  let w' := snd (Create Mem.service Mem.billing Mem.adt1 w) in
  let new := Create_newApp Mem.service Mem.billing Mem.adt1 w in
  Create Mem.service Mem.billing Mem.adt1 w = (Some (inl Mem.created), w')
  /\ new = (Some (Mem.newApp, None), snd new)
  /\ (exists key, App.APIKeys Mem.newApp = [key]
                  /\ APIKey.DeactivationDate key = farFuture)
  /\ List.length (filter is_key_insert (events_since w w')) = 1%nat
  /\ (exists k,
        AppResponse.APIKeys Mem.created
        = [APIKeyResponse.mk k "2099-12-31 00:00:00 +0000 UTC"]).
Proof.
  intros w w' new.
  destruct (Create_one_key_far_future Mem.service Mem.billing Mem.adt1 w
              (out := Some (inl Mem.created)) (w' := w') eq_refl)
    as (Ha & _ & _ & Hr).
  split; [reflexivity|]. split; [reflexivity|]. split.
  - apply (Ha Mem.newApp (snd new)). reflexivity.
  - exact (Hr Mem.created eq_refl).
Defined.

Lemma Create_persists_no_plaintext_witness :
  let w := Mem.world (Mem.seeded Mem.noFaults) in
  let w' := snd (Create Mem.service Mem.billing Mem.adt1 w) in
  let new := Create_newApp Mem.service Mem.billing Mem.adt1 w in
  Create Mem.service Mem.billing Mem.adt1 w = (Some (inl Mem.created), w')
  /\ new = (Some (Mem.newApp, None), snd new)
  /\ (forall p res,
        In (EvCreateAppAPIKey p res) (events_since w w') ->
        exists key,
          In key (App.APIKeys Mem.newApp)
          /\ CreateAppAPIKeyParams.ApiKey p = APIKey.Ciphertext key
          /\ CreateAppAPIKeyParams.DeactvDate p = APIKey.DeactivationDate key
          /\ CreateAppAPIKeyParams.AppID p = App.ID Mem.newApp
          /\ key_create_columns p = audit_columns Mem.adt1
          /\ key_update_columns p = audit_columns Mem.adt1)
  /\ map APIKeyResponse.Key (AppResponse.APIKeys Mem.created)
     = map APIKey.Key (App.APIKeys Mem.newApp).
Proof.
  intros w w' new.
  destruct (Create_persists_no_plaintext Mem.service Mem.billing Mem.adt1 w
              (out := Some (inl Mem.created)) (w' := w') eq_refl)
    as (Ha & _).
  split; [reflexivity|]. split; [reflexivity|].
  destruct (Ha Mem.newApp (snd new) eq_refl) as (Hp & Hr).
  split; [exact Hp | exact (Hr Mem.created eq_refl)].
Defined.

Lemma Create_key_failure_no_transaction_witness :
  let w := Mem.world (Mem.seeded Mem.noFaults) in
  let new := Create_newApp Mem.brokenService Mem.billing Mem.adt1 w in
  new = (Some (Mem.newAppNoKey, Some Mem.noEntropy), snd new)
  /\ Create Mem.brokenService Mem.billing Mem.adt1 w
     = (Some (inr Mem.noEntropy), snd new)
  /\ events_since w (snd new) = []
  /\ pool (snd new) = pool w.
Proof.
  intros w new. split; [reflexivity|].
  apply (Create_key_failure_no_transaction Mem.brokenService Mem.billing
           Mem.adt1 w (a := Mem.newAppNoKey)).
  reflexivity.
Defined.

(** An app without key rows is not deleted; the app of [afterCreate] is,
    after its one key row. *)
Lemma Delete_keys_before_app_witness :
  let w := Mem.world Mem.orphan in
  let run := Delete Mem.service "x101" w in
  let v := Mem.nextCall Mem.noFaults Mem.afterCreate in
  let run' := Delete Mem.service "x101" v in
  (In (EvDeleteAppAPIKeys 100%N (inl 0)) (events_since w (snd run))
   /\ 0 < 1
   /\ (exists err, fst run = Some (inr err) /\ KindOf err = errs.Database)
   /\ existsb is_app_delete (events_since w (snd run)) = false
   /\ pool (snd run) = pool w)
  /\
  (events_since v (snd run')
   = ([EvFindAppByExternalID "x101"; EvBeginTx;
       EvDeleteAppAPIKeys 100%N (inl 1)]
        ++ EvDeleteApp 100%N (inl 1) :: [EvCommitTx None])%list
   /\ exists n,
       In (EvDeleteAppAPIKeys 100%N (inl n))
          [EvFindAppByExternalID "x101"; EvBeginTx;
           EvDeleteAppAPIKeys 100%N (inl 1)]
       /\ 1 <= n).
Proof.
  intros w run v run'. split.
  - destruct (Delete_keys_before_app Mem.service "x101" w
                (out := fst run) (w' := snd run) eq_refl) as (_ & H0 & _).
    assert (HIn : In (EvDeleteAppAPIKeys 100%N (inl 0))
                     (events_since w (snd run)))
      by (right; right; left; reflexivity).
    destruct (H0 100%N 0 HIn eq_refl) as (He & _ & Hd & _ & Hp).
    split; [exact HIn|]. split; [reflexivity|]. split; [exact He|].
    split; [exact Hd | exact Hp].
  - destruct (Delete_keys_before_app Mem.service "x101" v
                (out := fst run') (w' := snd run') eq_refl) as (H1 & _).
    split; [reflexivity|].
    apply (H1 _ 100%N (inl 1) [EvCommitTx None]). reflexivity.
Defined.

(** * Concrete runs for the further properties *)

(** An equation between closed terms, checked by evaluating its left
    side. *)
Ltac by_computation :=
  match goal with
  | |- ?l = _ => vm_cast_no_check (@eq_refl _ l)
  end.

(** Two keys go in, one insert each. *)
Lemma Create_APIKeys_all_inserted_witness :
  let tx := Mem.seeded Mem.noFaults in
  let w := Mem.world tx in
  let run :=
    Create_APIKeys (R := Mem.runtime) (E := Mem.engine)
      Mem.adt1 100%N Mem.twoKeys tx w in
  run = (Some (None, withTwoKeys), snd run)
  /\ events_since w (snd run) = map (key_inserted Mem.adt1 100%N) Mem.twoKeys
  /\ pool (snd run) = pool w.
Proof.
  intros tx w run.
  assert (Hrun : run = (Some (None, withTwoKeys), snd run))
    by by_computation.
  destruct (Create_APIKeys_all_inserted (R := Mem.runtime) (E := Mem.engine)
              Mem.adt1 100%N Mem.twoKeys tx w Hrun)
    as (He & _ & Hp & _).
  split; [exact Hrun|]. split; [exact He | exact Hp].
Defined.

(** The first insert affects no row: the second key is never tried. *)
Lemma Create_APIKeys_stops_at_first_failure_witness :
  let tx := Mem.seeded Mem.keyInsertAffectsNone in
  let w := Mem.world tx in
  let run :=
    Create_APIKeys (R := Mem.runtime) (E := Mem.engine)
      Mem.adt1 100%N Mem.twoKeys tx w in
  let err := errs_E_msg errs.Database "rows affected should be 1, actual: 0" in
  run = (Some (Some err, tx), snd run)
  /\ exists done key rest res,
      Mem.twoKeys = (done ++ key :: rest)%list
      /\ one_row res = false
      /\ events_since w (snd run)
         = (map (key_inserted Mem.adt1 100%N) done
            ++ [EvCreateAppAPIKey
                  (createAppAPIKeyParams Mem.adt1 100%N key) res;
                EvRollbackTx])%list
      /\ KindOf err = errs.Database
      /\ pool (snd run) = pool w.
Proof.
  intros tx w run err.
  assert (Hrun : run = (Some (Some err, tx), snd run)) by by_computation.
  split; [exact Hrun|].
  exact (Create_APIKeys_stops_at_first_failure (R := Mem.runtime)
           (E := Mem.engine) Mem.adt1 100%N Mem.twoKeys tx w Hrun).
Defined.

Lemma Create_success_commits_inserts_witness :
  let w := Mem.world (Mem.seeded Mem.noFaults) in
  let w' := snd (Create Mem.service Mem.billing Mem.adt1 w) in
  Create Mem.service Mem.billing Mem.adt1 w = (Some (inl Mem.created), w')
  /\ List.length (Mem.apps (pool w')) = 2%nat
  /\ List.length (Mem.keys (pool w')) = 1%nat
  /\ AppResponse.Name Mem.created = CreateAppRequest.Name Mem.billing
  /\ AppResponse.Description Mem.created
     = CreateAppRequest.Description Mem.billing.
Proof.
  intros w w'.
  assert (Hrun : Create Mem.service Mem.billing Mem.adt1 w
                 = (Some (inl Mem.created), w')) by by_computation.
  destruct (Create_success_commits_inserts Mem.service Mem.billing Mem.adt1
              w Hrun)
    as (a & w1 & key & _ & _ & _ & Hp & Hn & Hd).
  split; [exact Hrun|].
  split; [by_computation|]. split; [by_computation|].
  split; [exact Hn | exact Hd].
Defined.

Lemma Update_success_commits_update_witness :
  let w := Mem.nextCall Mem.noFaults Mem.afterCreate in
  let w' := snd (Update Mem.service Mem.rename Mem.adt2 w) in
  Update Mem.service Mem.rename Mem.adt2 w = (Some (inl Mem.renamed), w')
  /\ AppResponse.Name Mem.renamed = UpdateAppRequest.Name Mem.rename
  /\ AppResponse.Description Mem.renamed
     = UpdateAppRequest.Description Mem.rename
  /\ Mem.nameOf 100%N (pool w') = "Billing API".
Proof.
  intros w w'.
  assert (Hrun : Update Mem.service Mem.rename Mem.adt2 w
                 = (Some (inl Mem.renamed), w')) by by_computation.
  destruct (Update_success_commits_update Mem.service Mem.rename Mem.adt2
              w Hrun)
    as (aa & w1 & _ & _ & _ & Hn & Hd & _).
  split; [exact Hrun|]. split; [exact Hn|]. split; [exact Hd|].
  by_computation.
Defined.

Lemma Delete_success_witness :
  let w := Mem.nextCall Mem.noFaults Mem.afterCreate in
  let resp := DeleteResponse.mk "x101" true in
  let w' := snd (Delete Mem.service "x101" w) in
  Delete Mem.service "x101" w = (Some (inl resp), w')
  /\ resp = {| DeleteResponse.ExternalID := "x101";
               DeleteResponse.Deleted := true |}
  /\ Mem.apps (pool w') = [Mem.rootRow]
  /\ Mem.keys (pool w') = [].
Proof.
  intros w resp w'.
  assert (Hrun : Delete Mem.service "x101" w = (Some (inl resp), w'))
    by by_computation.
  split; [exact Hrun|].
  split; [exact (proj1 (Delete_success Mem.service "x101" w Hrun))|].
  split; by_computation.
Defined.

(** The key row is deleted in the transaction, the App row is not: the
    rollback leaves the key row where it was. *)
Lemma Delete_failed_write_rolls_back_witness :
  let w := Mem.nextCall Mem.appDeleteAffectsNone Mem.afterCreate in
  let run := Delete Mem.service "x101" w in
  existsb failed_delete (events_since w (snd run)) = true
  /\ (exists err, fst run = Some (inr err) /\ KindOf err = errs.Database)
  /\ last (events_since w (snd run)) EvBeginTx = EvRollbackTx
  /\ List.length (Mem.keysOf 100%N (pool (snd run))) = 1%nat
  /\ pool (snd run) = pool w.
Proof.
  intros w run.
  assert (Hrun : Delete Mem.service "x101" w = (fst run, snd run))
    by by_computation.
  assert (HF : existsb failed_delete (events_since w (snd run)) = true)
    by by_computation.
  destruct (Delete_failed_write_rolls_back Mem.service "x101" w Hrun HF)
    as (He & Hl & _ & Hp).
  split; [exact HF|]. split; [exact He|]. split; [exact Hl|].
  split; [by_computation | exact Hp].
Defined.

Lemma BeginTx_failure_returned_witness :
  let e := errors_New "too many connections" in
  let w := Mem.world (Mem.seeded Mem.beginFails) in
  let run := Create Mem.service Mem.billing Mem.adt1 w in
  let v := Mem.nextCall Mem.beginFails Mem.afterCreate in
  let run' := Delete Mem.service "x101" v in
  (In EvBeginTx (events_since w (snd run))
   /\ Begin Mem.engine (pool w) = Some e
   /\ fst run = Some (inr e)
   /\ events_since w (snd run) = [EvBeginTx]
   /\ pool (snd run) = pool w)
  /\ (In EvBeginTx (events_since v (snd run'))
      /\ Begin Mem.engine (pool v) = Some e
      /\ fst run' = Some (inr e)
      /\ pool (snd run') = pool v).
Proof.
  intros e w run v run'.
  destruct (BeginTx_failure_returned Mem.runtime Mem.engine)
    as (HC & _ & HD).
  split.
  - assert (Hrun : Create Mem.service Mem.billing Mem.adt1 w
                   = (fst run, snd run)) by by_computation.
    assert (HE : events_since w (snd run) = [EvBeginTx]) by by_computation.
    assert (HIn : In EvBeginTx (events_since w (snd run)))
      by (rewrite HE; left; reflexivity).
    assert (HB : Begin Mem.engine (pool w) = Some e) by by_computation.
    destruct (HC Mem.service Mem.billing Mem.adt1 w (fst run) (snd run) e
                Hrun HIn HB) as (Ho & He & Hp).
    split; [exact HIn|]. split; [exact HB|]. split; [exact Ho|].
    split; [exact He | exact Hp].
  - assert (Hrun : Delete Mem.service "x101" v = (fst run', snd run'))
      by by_computation.
    assert (HE : events_since v (snd run')
                 = [EvFindAppByExternalID "x101"; EvBeginTx])
      by by_computation.
    assert (HIn : In EvBeginTx (events_since v (snd run')))
      by (rewrite HE; right; left; reflexivity).
    assert (HB : Begin Mem.engine (pool v) = Some e) by by_computation.
    destruct (HD Mem.service "x101" v (fst run') (snd run') e Hrun HIn HB)
      as (Ho & _ & Hp).
    split; [exact HIn|]. split; [exact HB|]. split; [exact Ho | exact Hp].
Defined.

Lemma CommitTx_failure_returned_witness :
  let e := errors_New "commit: connection lost" in
  let w := Mem.nextCall Mem.commitFails Mem.afterCreate in
  let run := Update Mem.service Mem.rename Mem.adt2 w in
  In (EvCommitTx (Some e)) (events_since w (snd run))
  /\ fst run = Some (inr e)
  /\ last (events_since w (snd run)) EvBeginTx = EvCommitTx (Some e)
  /\ existsb is_rollback (events_since w (snd run)) = false.
Proof.
  intros e w run.
  destruct (CommitTx_failure_returned Mem.runtime Mem.engine)
    as (_ & HU & _).
  assert (Hrun : Update Mem.service Mem.rename Mem.adt2 w
                 = (fst run, snd run)) by by_computation.
  assert (HL : last (events_since w (snd run)) EvBeginTx
               = EvCommitTx (Some e)) by by_computation.
  assert (HIn : In (EvCommitTx (Some e)) (events_since w (snd run))).
  { rewrite <- HL.
    assert (HN : events_since w (snd run) <> []).
    { intro H0. rewrite H0 in HL. discriminate HL. }
    destruct (exists_last HN) as (l & a & Hl). rewrite Hl.
    rewrite last_last. apply in_or_app. right. left. reflexivity. }
  destruct (HU Mem.service Mem.rename Mem.adt2 w (fst run) (snd run) e
              Hrun HIn) as (Ho & Hl & Hr & _).
  split; [exact HIn|]. split; [exact Ho|]. split; [exact Hl | exact Hr].
Defined.

Lemma lookup_failure_begins_no_transaction_witness :
  let w := Mem.downWorld in
  let run := Update Mem.service Mem.rename Mem.adt2 w in
  let run' := Delete Mem.service "x101" w in
  FindAppByExternalIDWithAudit Mem.downEngine "x101" (pool w)
  = inr Mem.lookupFails
  /\ (exists err, fst run = Some (inr err) /\ KindOf err = errs.Database)
  /\ events_since w (snd run) = [EvFindAppByExternalIDWithAudit "x101"]
  /\ (exists err, fst run' = Some (inr err) /\ KindOf err = errs.Database)
  /\ events_since w (snd run') = [EvFindAppByExternalID "x101"].
Proof.
  intros w run run'.
  destruct (lookup_failure_begins_no_transaction Mem.runtime Mem.downEngine)
    as (HU & HD).
  assert (Hrun : Update Mem.service Mem.rename Mem.adt2 w
                 = (fst run, snd run)) by by_computation.
  assert (Hrun' : Delete Mem.service "x101" w = (fst run', snd run'))
    by by_computation.
  destruct (HU Mem.service Mem.rename Mem.adt2 w (fst run) (snd run)
              Mem.lookupFails Hrun eq_refl) as (Ho & He & _).
  destruct (HD Mem.service "x101" w (fst run') (snd run') Mem.lookupFails
              Hrun' eq_refl) as (Ho' & He' & _).
  split; [reflexivity|]. split; [exact Ho|]. split; [exact He|].
  split; [exact Ho' | exact He'].
Defined.

(** An equation whose right side is still to be found: the left side is
    evaluated and the right side is filled with the result. *)
Ltac by_evaluation :=
  match goal with
  | |- ?l = ?r =>
      let v := eval vm_compute in l in
      unify r v; vm_cast_no_check (@eq_refl _ l)
  end.

Lemma lookups_hydrate_same_App_witness :
  let w := Mem.nextCall Mem.noFaults Mem.afterCreate in
  let found :=
    findAppByExternalIDWithAudit (R := Mem.runtime) (pool w) "x101" w in
  exists row rowA aa,
    FindAppByExternalID Mem.engine "x101" (pool w) = inl row
    /\ FindAppByExternalIDWithAudit Mem.engine "x101" (pool w) = inl rowA
    /\ shared_columns rowA = row
    /\ fst found = Some (inl aa)
    /\ fst (findAppByExternalID (R := Mem.runtime) (pool w) "x101" w)
       = Some (inl (appAudit.App aa)).
Proof.
  intros w found. do 3 eexists.
  split; [by_evaluation|]. split; [by_evaluation|].
  split; [by_computation|].
  split; [by_evaluation|].
  match goal with
  | |- fst (findAppByExternalID _ _ _) = Some (inl (appAudit.App ?aa)) =>
      assert (HR : FindAppByExternalID Mem.engine "x101" (pool w) = inl _)
        by by_evaluation;
      assert (HA : FindAppByExternalIDWithAudit Mem.engine "x101" (pool w)
                   = inl _) by by_evaluation;
      assert (HF : found = (Some (inl aa), snd found))
        by by_computation;
      refine (lookups_hydrate_same_App (R := Mem.runtime) (E := Mem.engine)
                (pool w) "x101" w HR HA _ HF);
      by_computation
  end.
Defined.

Lemma Create_app_row_before_keys_witness :
  let w := Mem.world (Mem.seeded Mem.noFaults) in
  let w' := snd (Create Mem.service Mem.billing Mem.adt1 w) in
  let inserted := EvCreateApp (createAppParams Mem.newApp Mem.adt1) (inl 1) in
  let key := APIKey.mk "key102" "sealed:key102" farFuture in
  Create Mem.service Mem.billing Mem.adt1 w = (Some (inl Mem.created), w')
  /\ events_since w w'
     = ([EvBeginTx; inserted]
        ++ key_inserted Mem.adt1 100%N key :: [EvCommitTx None])%list
  /\ exists pa,
      In (EvCreateApp pa (inl 1)) [EvBeginTx; inserted]
      /\ CreateAppParams.AppID pa = 100%N.
Proof.
  intros w w' inserted key.
  assert (Hrun : Create Mem.service Mem.billing Mem.adt1 w
                 = (Some (inl Mem.created), w')) by by_computation.
  assert (HE : events_since w w'
               = ([EvBeginTx; inserted]
                  ++ key_inserted Mem.adt1 100%N key :: [EvCommitTx None])%list)
    by by_computation.
  split; [exact Hrun|]. split; [exact HE|].
  exact (Create_app_row_before_keys Mem.service Mem.billing Mem.adt1 w Hrun
           [EvBeginTx; inserted]
           (createAppAPIKeyParams Mem.adt1 100%N key) (inl 1)
           [EvCommitTx None] HE).
Defined.

Lemma one_transaction_per_call_witness :
  let w := Mem.nextCall Mem.noFaults Mem.afterCreate in
  let run := Update Mem.service Mem.rename Mem.adt2 w in
  In EvBeginTx (events_since w (snd run))
  /\ Begin Mem.engine (pool w) = None
  /\ one_transaction (events_since w (snd run)) = true
  /\ is_end (last (events_since w (snd run)) EvBeginTx) = true.
Proof.
  intros w run.
  destruct (one_transaction_per_call Mem.runtime Mem.engine)
    as (_ & HU & _).
  assert (Hrun : Update Mem.service Mem.rename Mem.adt2 w
                 = (fst run, snd run)) by by_computation.
  assert (HE : events_since w (snd run)
               = [EvFindAppByExternalIDWithAudit "x101"; EvBeginTx;
                  EvUpdateApp
                    (updateAppParams
                       (appAudit.mk Mem.newApp
                          (SimpleAudit.mk Mem.adt1 Mem.adt1))
                       Mem.rename Mem.adt2) (inl 1);
                  EvCommitTx None]) by by_computation.
  assert (HIn : In EvBeginTx (events_since w (snd run)))
    by (rewrite HE; right; left; reflexivity).
  assert (HB : Begin Mem.engine (pool w) = None) by by_computation.
  destruct (HU Mem.service Mem.rename Mem.adt2 w (fst run) (snd run) Hrun)
    as (H1 & H2).
  split; [exact HIn|]. split; [exact HB|]. split; [exact H1|].
  exact (H2 HIn HB).
Defined.

